(** * Smart-summarization-camera-based: the log analyzers

    A shallow embedding of the two log analyzers of the repository,
    [ocr_analyzer.py] and [ocr_updated_analyze.py], and of the extractive
    summarizer of the latter, with the properties of their analysis results.

    Layout:
    - [Py]            the Python built-ins the analyzers rely on
                      ([str.join], [str.split], insertion-ordered [dict],
                      [collections.Counter], [sorted], [heapq.nlargest]);
    - [TextRuntime], [ScoreArith], [TimeRuntime]
                      what the analyzers import from outside the repository
                      (NLTK, float arithmetic, [datetime] parsing and printing);
    - [Log]           the event records of the JSON log;
    - [Analyzer]      [ocr_analyzer.py];
    - [SmartAnalyzer] [ocr_updated_analyze.py];
    - [Design]        the operations as the design document words them;
    - [Rules]         small executable instances of the three interfaces;
    - the properties. *)

From Stdlib Require Import String Ascii List ZArith QArith Lia Bool.
From Stdlib Require Import Qabs Permutation Sorted DecimalString.
Import ListNotations.

Close Scope Q_scope.

(* ------------------------------------------------------------------ *)
(** * Python built-ins *)
(* ------------------------------------------------------------------ *)

Module Py.

Local Open Scope string_scope.

(** [sep.join(l)]. *)
Fixpoint join (sep : string) (l : list string) : string :=
  match l with
  | [] => EmptyString
  | x :: tl =>
      match tl with
      | [] => x
      | _ :: _ => x ++ sep ++ join sep tl
      end
  end.

(** [s.split(sep)] for a one-character separator: every occurrence of the
    separator cuts, so the result has one more item than [s] has separators
    and [EmptyString.split(sep)] is the one-item list. *)
Fixpoint split (sep : ascii) (s : string) : list string :=
  match s with
  | EmptyString => [EmptyString]
  | String c s' =>
      if Ascii.eqb c sep then EmptyString :: split sep s'
      else match split sep s' with
           | [] => [String c EmptyString]
           | w :: ws => String c w :: ws
           end
  end.

(** [str(n)] for an [int]. *)
Definition str_of_int (n : Z) : string := NilZero.string_of_int (Z.to_int n).

(** ** Dictionaries with string keys

    A Python [dict] iterates in insertion order, and both analyzers depend on
    that order ([Counter.most_common] and [heapq.nlargest] break ties by it),
    so a dictionary is the list of its items in insertion order, keys
    distinct. *)
Section Dict.
Context {V : Type}.

Definition dict : Type := list (string * V).

(** [d.get(k)]; [None] when [k not in d]. *)
Fixpoint dict_get (d : dict) (k : string) : option V :=
  match d with
  | [] => None
  | (k', v) :: d' => if String.eqb k' k then Some v else dict_get d' k
  end.

(** [k in d]. *)
Definition dict_mem (d : dict) (k : string) : bool :=
  match dict_get d k with Some _ => true | None => false end.

(** [d[k] = v]: an existing key keeps its place, a new one goes last. *)
Fixpoint dict_set (d : dict) (k : string) (v : V) : dict :=
  match d with
  | [] => [(k, v)]
  | (k', v') :: d' =>
      if String.eqb k' k then (k', v) :: d' else (k', v') :: dict_set d' k v
  end.

Definition keys (d : dict) : list string := map fst d.
Definition values (d : dict) : list V := map snd d.
End Dict.

Arguments dict : clear implicits.

(** [collections.Counter(l)]: one pass over [l], counting. *)
Definition count_one (d : dict Z) (w : string) : dict Z :=
  match dict_get d w with
  | None => dict_set d w 1%Z
  | Some c => dict_set d w (c + 1)%Z
  end.

Definition Counter (l : list string) : dict Z := fold_left count_one l [].

(** ** Sorting

    [list.sort] and [sorted] are stable; for a given key their result is
    therefore determined, and insertion of each item in front of the sorted
    rest computes it. *)
Section Sorting.
Context {A K : Type} (leb : K -> K -> bool) (key : A -> K).

(** Ascending: [x], which stood before all of [l], goes in front of the
    first item whose key is not smaller. *)
Fixpoint insert_asc (x : A) (l : list A) : list A :=
  match l with
  | [] => [x]
  | y :: l' => if leb (key x) (key y) then x :: l else y :: insert_asc x l'
  end.

(** [sorted(l, key=key)], and [l.sort(key=key)]. *)
Definition sorted (l : list A) : list A := fold_right insert_asc [] l.

(** Descending, the order of equal keys kept ([reverse=True] keeps it):
    [x] goes in front of the first item whose key is not larger. *)
Fixpoint insert_desc (x : A) (l : list A) : list A :=
  match l with
  | [] => [x]
  | y :: l' => if leb (key y) (key x) then x :: l else y :: insert_desc x l'
  end.

(** [sorted(l, key=key, reverse=True)]. *)
Definition sorted_reverse (l : list A) : list A := fold_right insert_desc [] l.

(** [heapq.nlargest(n, l, key=key)], which the library documents as
    [sorted(l, key=key, reverse=True)[:n]]. *)
Definition nlargest (n : nat) (l : list A) : list A :=
  firstn n (sorted_reverse l).
End Sorting.

(** The order a stable descending sort by an integer key puts its result
    in: the larger key first, and for equal keys the earlier place first.
    [pos] is any numbering of the items that grows along the input. *)
Definition outranks {A : Type} (key : A -> Z) (pos : A -> nat) (a b : A)
  : Prop :=
  (key b < key a)%Z \/ (key a = key b /\ pos a < pos b).

(** [c.most_common(n)]: [heapq.nlargest(n, c.items(), key=itemgetter(1))]. *)
Definition most_common (n : nat) (c : dict Z) : list (string * Z) :=
  nlargest Z.leb snd n c.

(** [enumerate(l)]. *)
Definition enumerate {A : Type} (l : list A) : list (nat * A) :=
  combine (seq 0 (length l)) l.

(** [sum(l)] over integers. *)
Definition sum (l : list Z) : Z := fold_left Z.add l 0%Z.

End Py.

(* ------------------------------------------------------------------ *)
(** * What the analyzers import *)
(* ------------------------------------------------------------------ *)

(** NLTK's tokenizers and stop-word list, and the two [str] methods whose
    result depends on Unicode tables.  None of them is code of the
    repository; the analyzers are stated over any implementation. *)
Class TextRuntime : Type := {
  sent_tokenize : string -> list string;
  word_tokenize : string -> list string;
  stopwords_english : list string;      (* [stopwords.words('english')] *)
  str_lower : string -> string;         (* [s.lower()] *)
  str_isalnum : string -> bool          (* [s.isalnum()] *)
}.

(** The float arithmetic of sentence scoring: [int / int], [+] and the
    comparison [heapq.nlargest] sorts with.  Rounding is left to the
    implementation. *)
Class ScoreArith : Type := {
  score : Type;
  truediv : Z -> Z -> score;
  score_add : score -> score -> score;
  score_leb : score -> score -> bool
}.

(** A [datetime] made by [strptime] from a time of day carries the date
    1900-01-01; it is the number of microseconds since that midnight.  A
    difference of two of them is a [timedelta], again in microseconds. *)
Definition datetime : Type := Z.
Definition timedelta : Type := Z.

(** [td.total_seconds()].  The float is the quotient by [10**6], correctly
    rounded; compared with a small integer it orders as the exact quotient
    does, which is what the model keeps. *)
Definition total_seconds (td : timedelta) : Q := (td # 1000000)%Q.

(** [datetime.strptime] ([None] for its [ValueError]), the fixed-point float
    formatting of f-strings, and the clock. *)
Class TimeRuntime : Type := {
  strptime : string -> string -> option datetime;
  format_fixed : nat -> Q -> string;    (* [f"{x:.<n>f}"] *)
  now_text : string    (* [datetime.now().strftime('%Y-%m-%d %H:%M:%S')] *)
}.

Inductive exn : Type :=
| ValueError (msg : string).

Local Open Scope string_scope.

Definition nl : string := String (ascii_of_nat 10) EmptyString.

Definition digit (n : Z) : ascii := ascii_of_nat (48 + Z.to_nat (n mod 10)).

Definition two_digits (n : Z) : string :=
  String (digit (n / 10)) (String (digit n) EmptyString).

Definition three_digits (n : Z) : string :=
  String (digit (n / 100)) (two_digits n).

(** [t.strftime('%H:%M:%S.%f')[:-3]]: the time of day, to the millisecond. *)
Definition strftime_ms (t : datetime) : string :=
  let us := (t mod 86400000000)%Z in
  two_digits (us / 3600000000) ++ ":" ++
  two_digits ((us / 60000000) mod 60) ++ ":" ++
  two_digits ((us / 1000000) mod 60) ++ "." ++
  three_digits ((us / 1000) mod 1000).

(* ------------------------------------------------------------------ *)
(** * The event log *)
(* ------------------------------------------------------------------ *)

Module Log.

(** One record of the JSON log, as [ocr_save.py] writes it. *)
Record record : Type := {
  timestamp : string;
  total_words_detected : Z;
  non_duplicate_count : Z;
  keywords : list string;
  detected_words_list : list string
}.

(** A record after the analyzer has stored the parsed time under
    ['dt_time']. *)
Record timed_record : Type := {
  rec : record;
  dt_time : datetime
}.

(** The findings of the key-event scan.  The analyzers append one line of
    text per finding; the constructors hold what the line is made of. *)
Inductive event : Type :=
| HighActivity (at_time : string) (count : Z)
| PauseBreak (from_time to_time : string) (time_diff : Q)
| NoSignificantEvents.

Definition is_activity (e : event) : bool :=
  match e with HighActivity _ _ => true | _ => false end.

Definition is_pause (e : event) : bool :=
  match e with PauseBreak _ _ _ => true | _ => false end.

End Log.

Import Log.

(* ------------------------------------------------------------------ *)
(** * [ocr_analyzer.py] *)
(* ------------------------------------------------------------------ *)

Module Analyzer.

Definition SUMMARY_OUTPUT_FILENAME : string := "ocr_narrative_summary.txt".
Definition ACTIVITY_THRESHOLD : Z := 50.
Definition GAP_THRESHOLD_SECONDS : Z := 5.

Section WithRuntime.
Context {TR : TimeRuntime}.

(** [parse_timestamp]: with the fraction first, then without; the second
    failure is raised again as a [ValueError] of its own. *)
Definition parse_timestamp (time_str : string) : exn + datetime :=
  match strptime time_str "%H:%M:%S.%f" with
  | Some t => inr t
  | None =>
      match strptime time_str "%H:%M:%S" with
      | Some t => inr t
      | None =>
          inl (ValueError ("Could not parse time data '" ++ time_str ++ "'."))
      end
  end.

(** One turn of the loop that parses the timestamps.  The state is what has
    been printed so far and [timed_records]. *)
Definition parse_record (st : list string * list timed_record) (record : record)
  : list string * list timed_record :=
  let '(stdout, timed_records) := st in
  match parse_timestamp (timestamp record) with
  | inr t =>
      (stdout, List.app timed_records [{| rec := record; dt_time := t |}])
  | inl _ =>
      let warning :=
        "[WARNING] Skipping record due to bad timestamp: " ++ timestamp record in
      (List.app stdout [warning], timed_records)
  end.

(** The body of the scan loop for [record] at index [i]: the activity test,
    then, from the second record on, the gap to [timed_records[i-1]]. *)
Definition events_at (timed_records : list timed_record) (i : nat)
    (record : timed_record) : list event :=
  List.app
  (if (ACTIVITY_THRESHOLD <=? non_duplicate_count (rec record))%Z
   then [HighActivity (timestamp (rec record))
                      (non_duplicate_count (rec record))]
   else [])
  (if (0 <? i)%nat then
     let prev := nth (i - 1) timed_records record in
     let time_diff := total_seconds (dt_time record - dt_time prev)%Z in
     if Qle_bool (inject_Z GAP_THRESHOLD_SECONDS) time_diff
     then [PauseBreak (timestamp (rec prev)) (timestamp (rec record)) time_diff]
     else []
   else []).

Definition scan_events (timed_records : list timed_record) : list event :=
  flat_map (fun ir => events_at timed_records (fst ir) (snd ir))
           (Py.enumerate timed_records).

(** [important_events] when the scan is over: a scan that found nothing
    leaves the one line that says so. *)
Definition important_events_of (timed_records : list timed_record)
  : list event :=
  match scan_events timed_records with
  | [] => [NoSignificantEvents]
  | e :: es => e :: es
  end.

(** The local variables of [generate_narrative_summary] when the narrative
    is assembled. *)
Record analysis : Type := {
  start_time : string;
  end_time : string;
  total_duration : Q;
  total_words_read : Z;
  word_counts : Py.dict Z;
  top_content_words : list string;
  inferred_content_keywords : string;
  important_events : list event
}.

(** [generate_narrative_summary] up to the assembly: what was printed, and
    either the message of an early [return] or the analysis. *)
Definition analyse (log_data : list record)
  : list string * (string + analysis) :=
  match log_data with
  | [] =>
      ([], inl "No text detection events were recorded. Cannot generate summary.")
  | _ :: _ =>
      let '(stdout, timed_records) := fold_left parse_record log_data ([], []) in
      match timed_records with
      | [] =>
          (stdout,
           inl "No valid time data found in the log. Cannot generate summary.")
      | r0 :: _ =>
          let timed_records := Py.sorted Z.leb dt_time timed_records in
          let total_words_read :=
            Py.sum (map (fun r => non_duplicate_count (rec r)) timed_records) in
          let first := nth 0 timed_records r0 in
          let last := List.last timed_records r0 in
          let all_content_words :=
            flat_map (fun r => detected_words_list (rec r)) timed_records in
          let word_counts := Py.Counter all_content_words in
          let top_content_words := map fst (Py.most_common 10 word_counts) in
          (stdout,
           inr {| start_time := strftime_ms (dt_time first);
                  end_time := strftime_ms (dt_time last);
                  total_duration :=
                    total_seconds (dt_time last - dt_time first)%Z;
                  total_words_read := total_words_read;
                  word_counts := word_counts;
                  top_content_words := top_content_words;
                  inferred_content_keywords :=
                    Py.join ", " (firstn 5 top_content_words);
                  important_events := important_events_of timed_records |})
      end
  end.

(** The line appended to [important_events] for a finding. *)
Definition event_line (e : event) : string :=
  match e with
  | HighActivity ts n =>
      "- HIGH ACTIVITY at " ++ ts ++ ": " ++ Py.str_of_int n
        ++ " words detected. (Possible large document/email/page)"
  | PauseBreak ts_prev ts time_diff =>
      "- PAUSE/BREAK between " ++ ts_prev ++ " and " ++ ts ++ " ("
        ++ format_fixed 1 time_diff ++ " seconds). (Possible switch of content)"
  | NoSignificantEvents =>
      "- No significant pauses or high-activity events detected based on set thresholds."
  end.

Definition rule : string := "------------------------------------------------".

(** The narrative assembly. *)
Definition narrative (a : analysis) : string :=
  nl ++ nl
  ++ "## Session Overview" ++ nl
  ++ rule ++ nl
  ++ "**[START TIME]** The OCR session began at **" ++ start_time a ++ "**." ++ nl
  ++ "**[END TIME]** The last detection was recorded at **" ++ end_time a
  ++ "**." ++ nl
  ++ "**[DURATION]** Total time span covered by detections: **"
  ++ format_fixed 2 (total_duration a) ++ " seconds**." ++ nl
  ++ nl
  ++ "## Inferred Content Summary" ++ nl
  ++ rule ++ nl
  ++ "Based on the most frequently detected words, the content was likely related to:"
  ++ nl
  ++ "**TOP CONTENT THEMES:** " ++ inferred_content_keywords a ++ nl ++ nl
  ++ "**TOP 10 WORDS READ (Overall):** " ++ Py.join ", " (top_content_words a)
  ++ nl
  ++ "**TOTAL UNIQUE WORDS:** "
  ++ Py.str_of_int (Z.of_nat (length (word_counts a))) ++ nl
  ++ "**TOTAL WORDS READ (All Events):** " ++ Py.str_of_int (total_words_read a)
  ++ nl
  ++ nl
  ++ "## Important Reading Events (High Activity or Significant Pauses)" ++ nl
  ++ rule ++ nl
  ++ "The following events may indicate a large document/mail or a switch in reading material:"
  ++ nl
  ++ Py.join nl (map event_line (important_events a))
  ++ nl ++ nl.

(** [generate_narrative_summary]: the printed lines and the returned text. *)
Definition generate_narrative_summary (log_data : list record)
  : list string * string :=
  let '(stdout, r) := analyse log_data in
  (stdout, match r with inl message => message | inr a => narrative a end).

End WithRuntime.
End Analyzer.

(* ------------------------------------------------------------------ *)
(** * [ocr_updated_analyze.py] *)
(* ------------------------------------------------------------------ *)

Module SmartAnalyzer.

Definition SUMMARY_OUTPUT_FILENAME : string := "ocr_smart_narrative_summary.txt".
Definition ACTIVITY_THRESHOLD : Z := 50.
Definition GAP_THRESHOLD_SECONDS : Z := 5.

(** The default of [num_sentences]. *)
Definition default_num_sentences : nat := 4.

Section WithRuntime.
Context {TX : TextRuntime} {SA : ScoreArith} {TR : TimeRuntime}.

Definition parse_timestamp (time_str : string) : exn + datetime :=
  match strptime time_str "%H:%M:%S.%f" with
  | Some t => inr t
  | None =>
      match strptime time_str "%H:%M:%S" with
      | Some t => inr t
      | None =>
          inl (ValueError ("Could not parse time data '" ++ time_str ++ "'."))
      end
  end.

(** ** The extractive summarizer *)

(** Step 3, the body of the loop over [words]. *)
Definition count_content_word (stop_words : list string)
    (word_frequencies : Py.dict Z) (word : string) : Py.dict Z :=
  if str_isalnum word && negb (existsb (String.eqb word) stop_words) then
    match Py.dict_get word_frequencies word with
    | None => Py.dict_set word_frequencies word 1%Z
    | Some c => Py.dict_set word_frequencies word (c + 1)%Z
    end
  else word_frequencies.

(** [max(word_frequencies.values()) if word_frequencies else 1]. *)
Definition max_frequency_of (word_frequencies : Py.dict Z) : Z :=
  match Py.values word_frequencies with
  | [] => 1%Z
  | v :: vs => fold_left Z.max vs v
  end.

(** The normalisation loop: every count is divided by [max_frequency]. *)
Definition normalise (word_frequencies : Py.dict Z) (max_frequency : Z)
  : Py.dict score :=
  map (fun kv => (fst kv, truediv (snd kv) max_frequency)) word_frequencies.

(** [word_frequencies] after steps 3 and the normalisation. *)
Definition word_frequencies_of (text : string) : Py.dict score :=
  let words := word_tokenize (str_lower text) in
  let stop_words := stopwords_english in
  let word_frequencies := fold_left (count_content_word stop_words) words [] in
  normalise word_frequencies (max_frequency_of word_frequencies).

(** Step 4, the body of the inner loop: a word that has a frequency adds it
    to the score of its sentence, if the sentence splits on spaces into
    fewer than 30 items. *)
Definition score_word (word_frequencies : Py.dict score) (sentence : string)
    (sentence_scores : Py.dict score) (word : string) : Py.dict score :=
  match Py.dict_get word_frequencies word with
  | Some f =>
      if (length (Py.split " " sentence) <? 30)%nat then
        match Py.dict_get sentence_scores sentence with
        | None => Py.dict_set sentence_scores sentence f
        | Some s => Py.dict_set sentence_scores sentence (score_add s f)
        end
      else sentence_scores
  | None => sentence_scores
  end.

(** Step 4, the body of the outer loop. *)
Definition score_sentence (word_frequencies : Py.dict score)
    (sentence_scores : Py.dict score) (sentence : string) : Py.dict score :=
  fold_left (score_word word_frequencies sentence)
            (word_tokenize (str_lower sentence)) sentence_scores.

Definition sentence_scores_of (text : string) : Py.dict score :=
  fold_left (score_sentence (word_frequencies_of text)) (sent_tokenize text) [].

(** Step 5: [nlargest(num_sentences, sentence_scores, key=sentence_scores.get)]
    walks the keys and ranks each by its value; the keys are distinct, so it
    is the ranking of the items by value, keys kept. *)
Definition summary_sentences_of (num_sentences : nat)
    (sentence_scores : Py.dict score) : list string :=
  map fst (Py.nlargest score_leb snd num_sentences sentence_scores).

Definition generate_extractive_summary (all_words : list string)
    (num_sentences : nat) : string :=
  match all_words with
  | [] => "Not enough coherent text detected to generate a narrative summary."
  | _ :: _ =>
      let text := Py.join " " all_words in
      let sentences := sent_tokenize text in
      if (length sentences <? num_sentences)%nat then Py.join " " sentences
      else
        let sentence_scores := sentence_scores_of text in
        let summary_sentences :=
          summary_sentences_of num_sentences sentence_scores in
        Py.join " " summary_sentences
  end.

(** ** The analysis *)

(** One turn of the loop that parses the timestamps: a bad timestamp is
    passed over. *)
Definition parse_record (timed_records : list timed_record) (record : record)
  : list timed_record :=
  match parse_timestamp (timestamp record) with
  | inr t => List.app timed_records [{| rec := record; dt_time := t |}]
  | inl _ => timed_records
  end.

Definition events_at (timed_records : list timed_record) (i : nat)
    (record : timed_record) : list event :=
  List.app
  (if (ACTIVITY_THRESHOLD <=? non_duplicate_count (rec record))%Z
   then [HighActivity (timestamp (rec record))
                      (non_duplicate_count (rec record))]
   else [])
  (if (0 <? i)%nat then
     let prev := nth (i - 1) timed_records record in
     let time_diff := total_seconds (dt_time record - dt_time prev)%Z in
     if Qle_bool (inject_Z GAP_THRESHOLD_SECONDS) time_diff
     then [PauseBreak (timestamp (rec prev)) (timestamp (rec record)) time_diff]
     else []
   else []).

Definition scan_events (timed_records : list timed_record) : list event :=
  flat_map (fun ir => events_at timed_records (fst ir) (snd ir))
           (Py.enumerate timed_records).

Definition important_events_of (timed_records : list timed_record)
  : list event :=
  match scan_events timed_records with
  | [] => [NoSignificantEvents]
  | e :: es => e :: es
  end.

(** The local variables of [generate_narrative_summary] when the narrative
    is assembled. *)
Record analysis : Type := {
  start_time : string;
  end_time : string;
  total_duration : Q;
  word_counts : Py.dict Z;
  total_words_read : Z;
  top_content_words : list string;
  content_summary_narrative : string;
  important_events : list event
}.

(** [generate_narrative_summary] up to the assembly.  This variant prints
    nothing. *)
Definition analyse (log_data : list record)
  : list string * (string + analysis) :=
  match log_data with
  | [] =>
      ([], inl "No text detection events were recorded. Cannot generate summary.")
  | _ :: _ =>
      let timed_records := fold_left parse_record log_data [] in
      match timed_records with
      | [] =>
          ([], inl "No valid time data found in the log. Cannot generate summary.")
      | r0 :: _ =>
          let timed_records := Py.sorted Z.leb dt_time timed_records in
          let first := nth 0 timed_records r0 in
          let last := List.last timed_records r0 in
          let all_content_words :=
            flat_map (fun r => detected_words_list (rec r)) timed_records in
          let word_counts := Py.Counter all_content_words in
          ([],
           inr {| start_time := strftime_ms (dt_time first);
                  end_time := strftime_ms (dt_time last);
                  total_duration :=
                    total_seconds (dt_time last - dt_time first)%Z;
                  word_counts := word_counts;
                  total_words_read :=
                    Py.sum (map (fun r => non_duplicate_count (rec r))
                                timed_records);
                  top_content_words :=
                    map fst (Py.most_common 10 word_counts);
                  content_summary_narrative :=
                    generate_extractive_summary all_content_words
                                                default_num_sentences;
                  important_events := important_events_of timed_records |})
      end
  end.

Definition event_line (e : event) : string :=
  match e with
  | HighActivity ts n =>
      "- HIGH ACTIVITY at " ++ ts ++ ": " ++ Py.str_of_int n
        ++ " words detected. (Possible dense document/mail)"
  | PauseBreak ts_prev ts time_diff =>
      "- PAUSE/BREAK between " ++ ts_prev ++ " and " ++ ts ++ " ("
        ++ format_fixed 1 time_diff ++ " seconds). (Possible switch of content)"
  | NoSignificantEvents =>
      "- No significant pauses or high-activity events detected based on set thresholds."
  end.

Definition rule : string := "------------------------------------------------".

Definition narrative (a : analysis) : string :=
  "OCR Smart Analysis Report (Generated: " ++ now_text ++ ")" ++ nl
  ++ Py.join EmptyString (repeat "=" 60) ++ nl
  ++ "## 1. Content Summary (What was read?)" ++ nl
  ++ rule ++ nl
  ++ "This section provides a summary of the content by identifying the most important sentences:"
  ++ nl ++ nl
  ++ "**NARRATIVE:** " ++ content_summary_narrative a ++ nl ++ nl
  ++ "**TOP 10 CONTENT WORDS:** " ++ Py.join ", " (top_content_words a) ++ nl
  ++ nl ++ "## 2. Session Metrics (When did I read?)" ++ nl
  ++ rule ++ nl
  ++ "**[START TIME]** The OCR session began at **" ++ start_time a ++ "**." ++ nl
  ++ "**[END TIME]** The last detection was recorded at **" ++ end_time a
  ++ "**." ++ nl
  ++ "**[TOTAL DURATION]** Total time span covered by detections: **"
  ++ format_fixed 2 (total_duration a) ++ " seconds**." ++ nl
  ++ "**[TOTAL WORDS READ]** Total words processed (non-consecutive duplicates): **"
  ++ Py.str_of_int (total_words_read a) ++ "**." ++ nl
  ++ nl ++ "## 3. Key Events (Was there anything important?)" ++ nl
  ++ rule ++ nl
  ++ "The following events suggest a large document (high word count) or a major pause:"
  ++ nl
  ++ Py.join nl (map event_line (important_events a))
  ++ nl ++ nl.

Definition generate_narrative_summary (log_data : list record)
  : list string * string :=
  let '(stdout, r) := analyse log_data in
  (stdout, match r with inl message => message | inr a => narrative a end).

End WithRuntime.
End SmartAnalyzer.

(* ------------------------------------------------------------------ *)
(** * The operations as the design words them *)
(* ------------------------------------------------------------------ *)

Module Design.

(** "for each adjacent pair [(prev, cur)]". *)
Definition adjacent_pairs {A : Type} (l : list A) : list (A * A) :=
  combine l (tl l).

(** "if [cur.time - prev.time >= gapThresholdSeconds], emit a gap
    descriptor [{from: prev.timestamp, to: cur.timestamp, deltaSeconds}]". *)
Definition detectGaps (orderedEvents : list timed_record)
    (gapThresholdSeconds : Q) : list event :=
  flat_map
    (fun pc =>
       let deltaSeconds :=
         total_seconds (dt_time (snd pc) - dt_time (fst pc))%Z in
       if Qle_bool gapThresholdSeconds deltaSeconds
       then [PauseBreak (timestamp (rec (fst pc))) (timestamp (rec (snd pc)))
                        deltaSeconds]
       else [])
    (adjacent_pairs orderedEvents).

(** "for each event where [non_duplicate_count >= activityThreshold], emit
    [{timestamp, count}]". *)
Definition detectHighActivity (orderedEvents : list timed_record)
    (activityThreshold : Z) : list event :=
  map (fun r => HighActivity (timestamp (rec r)) (non_duplicate_count (rec r)))
      (filter (fun r => (activityThreshold <=? non_duplicate_count (rec r))%Z)
              orderedEvents).

(** "sum of each event's [non_duplicate_count]". *)
Definition totalWordsRead (events : list record) : Z :=
  fold_right (fun r acc => (non_duplicate_count r + acc)%Z) 0%Z events.

(** The time of a record, when its timestamp is in one of the two accepted
    formats. *)
Definition parsedTime {TR : TimeRuntime} (r : record) : option datetime :=
  match strptime (timestamp r) "%H:%M:%S.%f" with
  | Some t => Some t
  | None => strptime (timestamp r) "%H:%M:%S"
  end.

Definition parses {TR : TimeRuntime} (r : record) : bool :=
  match parsedTime r with Some _ => true | None => false end.

(** The valid events of a log, in the order of the log, and the dropped
    ones. *)
Definition validEvents {TR : TimeRuntime} (log_data : list record)
  : list record :=
  filter parses log_data.

Definition droppedEvents {TR : TimeRuntime} (log_data : list record)
  : list record :=
  filter (fun r => negb (parses r)) log_data.

(** The valid events, each with its time. *)
Definition timedEvents {TR : TimeRuntime} (log_data : list record)
  : list timed_record :=
  flat_map (fun r => match parsedTime r with
                     | Some t => [{| rec := r; dt_time := t |}]
                     | None => []
                     end)
           log_data.

(** "stable sort ascending by parsed timestamp". *)
Definition sortByTime (events : list timed_record) : list timed_record :=
  Py.sorted Z.leb dt_time events.

(** The session of a log: its valid events, sorted. *)
Definition session {TR : TimeRuntime} (log_data : list record)
  : list timed_record :=
  sortByTime (timedEvents log_data).

(** What identifies an event for the session metrics: its timestamp and
    its count, not its words. *)
Definition stamp_and_count (r : record) : string * Z :=
  (timestamp r, non_duplicate_count r).

(** "concatenation, in session order, of every event's [words]". *)
Definition mergeWords (orderedEvents : list record) : list string :=
  flat_map detected_words_list orderedEvents.

(** The place of the first occurrence of [w] in [l] (the length of [l] when
    there is none). *)
Fixpoint first_index (w : string) (l : list string) : nat :=
  match l with
  | [] => 0
  | x :: l' => if String.eqb x w then 0 else S (first_index w l')
  end.

(** The number of occurrences of [w] in [l]. *)
Fixpoint occurrences (w : string) (l : list string) : Z :=
  match l with
  | [] => 0%Z
  | x :: l' =>
      if String.eqb x w then (1 + occurrences w l')%Z else occurrences w l'
  end.

(** What a frequency table of the words [p] is: every item is a word of
    [p] with the number of its occurrences in [p], the keys stand in the
    order of their first occurrences, and every word of [p] is a key. *)
Definition counted (p : list string) (d : Py.dict Z) : Prop :=
  (forall kv, In kv d -> In (fst kv) p /\ snd kv = occurrences (fst kv) p)
  /\ StronglySorted (fun a b => first_index a p < first_index b p) (Py.keys d)
  /\ (forall w, In w p -> In w (Py.keys d)).

(** "top-[k] by descending count; tie-break by first occurrence order in
    [flatWordSequence]": [w1] ranks before [w2]. *)
Definition ranks_before (flatWordSequence : list string) (w1 w2 : string)
  : Prop :=
  (occurrences w2 flatWordSequence < occurrences w1 flatWordSequence)%Z
  \/ (occurrences w1 flatWordSequence = occurrences w2 flatWordSequence
      /\ first_index w1 flatWordSequence < first_index w2 flatWordSequence).

End Design.

(* ------------------------------------------------------------------ *)
(** * Executable instances of the interfaces *)
(* ------------------------------------------------------------------ *)

(** Small rule-based implementations, enough to run the analyzers on plain
    ASCII input: a segmenter that ends a sentence at a token closed by
    [.], [!] or [?] and followed by white space (the rule of NLTK's Punkt,
    without its model of abbreviations, initials and collocations), a word
    tokenizer that cuts at white space and detaches the closing mark,
    rational scores, and a parser of times of day written with ASCII
    digits. *)
Module Rules.

Local Open Scope nat_scope.

Definition is_space (c : ascii) : bool :=
  let n := nat_of_ascii c in
  ((9 <=? n) && (n <=? 13)) || (n =? 32).

Definition is_end (c : ascii) : bool :=
  Ascii.eqb c "." || Ascii.eqb c "!" || Ascii.eqb c "?".

Definition is_digit (c : ascii) : bool :=
  let n := nat_of_ascii c in (48 <=? n) && (n <=? 57).

Definition is_upper (c : ascii) : bool :=
  let n := nat_of_ascii c in (65 <=? n) && (n <=? 90).

Definition is_lower (c : ascii) : bool :=
  let n := nat_of_ascii c in (97 <=? n) && (n <=? 122).

Definition string_of_rev (l : list ascii) : string :=
  string_of_list_ascii (rev l).

(** [cur] is the sentence being read and [gap] the white space seen since
    its last token, both reversed; [ended] tells whether that token closed
    with an end mark.  White space between two sentences belongs to
    neither, and white space at the end of the text is dropped. *)
Fixpoint segment (cur gap : list ascii) (ended : bool) (s : string)
  : list string :=
  match s with
  | EmptyString =>
      match cur with
      | [] => []
      | _ :: _ => [string_of_rev cur]
      end
  | String c s' =>
      if is_space c then segment cur (c :: gap) ended s'
      else
        match gap with
        | _ :: _ =>
            if ended then string_of_rev cur :: segment [c] [] (is_end c) s'
            else segment (c :: gap ++ cur) [] (is_end c) s'
        | [] => segment (c :: cur) [] (is_end c) s'
        end
  end.

Definition rules_sent_tokenize (text : string) : list string :=
  segment [] [] false text.

(** The tokens of [s] between white space, [cur] being the one read. *)
Fixpoint tokens (cur : list ascii) (s : string) : list string :=
  match s with
  | EmptyString =>
      match cur with
      | [] => []
      | _ :: _ => [string_of_rev cur]
      end
  | String c s' =>
      if is_space c then
        match cur with
        | [] => tokens [] s'
        | _ :: _ => string_of_rev cur :: tokens [] s'
        end
      else tokens (c :: cur) s'
  end.

(** A token of more than one character that closes with an end mark gives
    the mark as a token of its own. *)
Definition detach_end (tok : string) : list string :=
  match rev (list_ascii_of_string tok) with
  | c :: (_ :: _) as r =>
      if is_end c then [string_of_rev r; String c EmptyString] else [tok]
  | _ => [tok]
  end.

Definition rules_word_tokenize (text : string) : list string :=
  flat_map (fun sentence => flat_map detach_end (tokens [] sentence))
           (rules_sent_tokenize text).

Definition lower_ascii (c : ascii) : ascii :=
  if is_upper c then ascii_of_nat (nat_of_ascii c + 32) else c.

Fixpoint rules_lower (s : string) : string :=
  match s with
  | EmptyString => EmptyString
  | String c s' => String (lower_ascii c) (rules_lower s')
  end.

Definition rules_isalnum (s : string) : bool :=
  match s with
  | EmptyString => false
  | String _ _ =>
      forallb (fun c => is_digit c || is_upper c || is_lower c)
              (list_ascii_of_string s)
  end.

(** The head of NLTK's English list; the examples use no other stop-word. *)
Definition rules_stopwords : list string :=
  [ "i"; "me"; "my"; "myself"; "we"; "our"; "ours"; "ourselves"; "you";
    "your"; "yours"; "yourself"; "yourselves"; "he"; "him"; "his";
    "himself"; "she"; "her"; "hers"; "herself"; "it"; "its"; "itself";
    "they"; "them"; "their"; "theirs"; "themselves"; "what"; "which";
    "who"; "whom"; "this"; "that"; "these"; "those"; "am"; "is"; "are";
    "was"; "were"; "be"; "been"; "being"; "have"; "has"; "had"; "having";
    "do"; "does"; "did"; "doing"; "a"; "an"; "the"; "and"; "but"; "if";
    "or"; "because"; "as"; "until"; "while"; "of"; "at"; "by"; "for";
    "with"; "about"; "against"; "between"; "into"; "through"; "during";
    "before"; "after"; "above"; "below"; "to"; "from"; "up"; "down"; "in";
    "out"; "on"; "off"; "over"; "under"; "again"; "further"; "then";
    "once"; "here"; "there"; "when"; "where"; "why"; "how"; "all"; "any";
    "both"; "each"; "few"; "more"; "most"; "other"; "some"; "such"; "no";
    "nor"; "not"; "only"; "own"; "same"; "so"; "than"; "too"; "very";
    "can"; "will"; "just"; "should"; "now" ].

#[export] Instance text : TextRuntime := {|
  sent_tokenize := rules_sent_tokenize;
  word_tokenize := rules_word_tokenize;
  stopwords_english := rules_stopwords;
  str_lower := rules_lower;
  str_isalnum := rules_isalnum
|}.

(** Scores as exact quotients. *)
#[export] Instance scores : ScoreArith := {|
  score := Q;
  truediv := fun a b => Qdiv (inject_Z a) (inject_Z b);
  score_add := Qplus;
  score_leb := Qle_bool
|}.

(** ** Times of day *)

Fixpoint digits_value (acc : Z) (s : string) : option Z :=
  match s with
  | EmptyString => Some acc
  | String c s' =>
      if is_digit c
      then digits_value (10 * acc + Z.of_nat (nat_of_ascii c - 48)) s'
      else None
  end.

(** A field of one to [width] digits. *)
Definition field (width : nat) (s : string) : option Z :=
  if (1 <=? String.length s) && (String.length s <=? width)
  then digits_value 0 s else None.

Definition time_of_day (h m s us : Z) : option datetime :=
  if ((h <=? 23) && (m <=? 59) && (s <=? 59))%Z
  then Some (((h * 60 + m) * 60 + s) * 1000000 + us)%Z
  else None.

Definition rules_strptime (data format : string) : option datetime :=
  match Py.split ":" data with
  | [h; m; s] =>
      if String.eqb format "%H:%M:%S" then
        match field 2 h, field 2 m, field 2 s with
        | Some h, Some m, Some s => time_of_day h m s 0
        | _, _, _ => None
        end
      else if String.eqb format "%H:%M:%S.%f" then
        match Py.split "." s with
        | [s; f] =>
            match field 2 h, field 2 m, field 2 s, field 6 f with
            | Some h, Some m, Some s, Some us =>
                time_of_day h m s (us * 10 ^ Z.of_nat (6 - String.length f))
            | _, _, _, _ => None
            end
        | _ => None
        end
      else None
  | _ => None
  end.

Fixpoint decimals (n : nat) (v : Z) : string :=
  match n with
  | O => EmptyString
  | S k => decimals k (v / 10) ++ String (digit v) EmptyString
  end.

Definition round_half_even (q : Q) : Z :=
  let d := Zpos (Qden q) in
  let floor := (Qnum q / d)%Z in
  let twice := (2 * (Qnum q mod d))%Z in
  if (twice <? d)%Z then floor
  else if (d <? twice)%Z then (floor + 1)%Z
  else if Z.even floor then floor else (floor + 1)%Z.

Definition rules_format_fixed (n : nat) (q : Q) : string :=
  let unit := (10 ^ Z.of_nat n)%Z in
  let scaled := round_half_even (Qmult (Qabs q) (inject_Z unit)) in
  (if (Qnum q <? 0)%Z then "-" else EmptyString)
  ++ Py.str_of_int (scaled / unit) ++ "." ++ decimals n (scaled mod unit).

#[export] Instance time : TimeRuntime := {|
  strptime := rules_strptime;
  format_fixed := rules_format_fixed;
  now_text := "2025-01-01 00:00:00"
|}.

End Rules.

(* ------------------------------------------------------------------ *)
(** * The capture scripts: [ocr.py] and [ocr_save.py] *)
(* ------------------------------------------------------------------ *)

(** What [count_and_extract_keywords] takes from [re] and [str]: the
    removal of every character that is neither a word character nor white
    space, lowering, the split at white space and the length.  All four
    depend on Unicode tables; the functions are stated over any
    implementation. *)
Class CaptureRuntime : Type := {
  strip_punctuation : string -> string;  (* [re.sub(r'[^\w\s]', '', text)] *)
  lower_text : string -> string;         (* [s.lower()] *)
  str_split : string -> list string;     (* [s.split()] *)
  str_len : string -> nat                (* [len(s)] *)
}.

(** [word not in stop_words]. *)
Definition not_in (stop_words : list string) (word : string) : bool :=
  negb (existsb (String.eqb word) stop_words).

(** ** [ocr.py] *)
Module Ocr.

Definition stop_words : list string :=
  [ "the"; "a"; "an"; "is"; "it"; "to"; "and"; "or"; "of"; "in"; "for";
    "with"; "on" ].

Section WithRuntime.
Context {CR : CaptureRuntime}.

(** [count_and_extract_keywords]: the number of words, and the keywords. *)
Definition count_and_extract_keywords (text : string) : nat * list string :=
  let cleaned_text := lower_text (strip_punctuation text) in
  let words := str_split cleaned_text in
  let word_count := length words in
  let filtered_words :=
    filter (fun word => not_in stop_words word && (1 <? str_len word)%nat)
           words in
  let word_freq := Py.Counter filtered_words in
  let keywords := map fst (Py.most_common 5 word_freq) in
  (word_count, keywords).

End WithRuntime.
End Ocr.

(** ** [ocr_save.py] *)
Module OcrSave.

Definition stop_words : list string :=
  [ "the"; "a"; "an"; "is"; "it"; "to"; "and"; "or"; "of"; "in";
    "for"; "with"; "on"; "at"; "by"; "this"; "that"; "we"; "are";
    "be"; "will"; "was"; "as"; "s"; "t"; "d"; "m"; "i" ].

(** The body of the loop that deletes consecutive duplicates, at index [i]:
    the word is appended when it differs from the word before it. *)
Definition keep_if_changed (all_detected_words : list string)
    (words_no_consecutive_duplicates : list string) (i : nat) : list string :=
  if String.eqb (nth i all_detected_words EmptyString)
                (nth (i - 1) all_detected_words EmptyString)
  then words_no_consecutive_duplicates
  else List.app words_no_consecutive_duplicates
                [nth i all_detected_words EmptyString].

(** Step 2: the first word, then the loop over [range(1, len(...))]. *)
Definition delete_consecutive_duplicates (all_detected_words : list string)
  : list string :=
  match all_detected_words with
  | [] => []
  | first :: _ =>
      fold_left (keep_if_changed all_detected_words)
                (seq 1 (length all_detected_words - 1)) [first]
  end.

Section WithRuntime.
Context {CR : CaptureRuntime}.

(** [all_detected_words]: the words of the cleaned text longer than one
    character. *)
Definition detected_words (text : string) : list string :=
  let cleaned_text := lower_text (strip_punctuation text) in
  let all_detected_words := str_split cleaned_text in
  filter (fun word => (1 <? str_len word)%nat) all_detected_words.

(** [count_and_extract_keywords]: the total count, the count without
    consecutive duplicates, the keywords and the words without consecutive
    duplicates. *)
Definition count_and_extract_keywords (text : string)
  : nat * nat * list string * list string :=
  let all_detected_words := detected_words text in
  let total_detected_count := length all_detected_words in
  let words_no_consecutive_duplicates :=
    delete_consecutive_duplicates all_detected_words in
  let non_duplicate_count := length words_no_consecutive_duplicates in
  let filtered_words :=
    filter (not_in stop_words) words_no_consecutive_duplicates in
  let word_freq := Py.Counter filtered_words in
  let keywords := map fst (Py.most_common 5 word_freq) in
  (total_detected_count, non_duplicate_count, keywords,
   words_no_consecutive_duplicates).

(** The event-based logging of the main loop, for one frame: the text read
    from the frame is analysed, and a record is appended to [LOG_DATA] only
    if a word is left.  [current_time_str] is the clock reading. *)
Definition log_frame (LOG_DATA : list record)
    (frame : string * string) : list record :=
  let '(current_time_str, extracted_text) := frame in
  let '(total_count, non_duplicate_count, keywords, word_list) :=
    count_and_extract_keywords extracted_text in
  if (0 <? non_duplicate_count)%nat then
    List.app LOG_DATA
      [{| timestamp := current_time_str;
          total_words_detected := Z.of_nat total_count;
          non_duplicate_count := Z.of_nat non_duplicate_count;
          keywords := keywords;
          detected_words_list := word_list |}]
  else LOG_DATA.

(** The log after a run over the given frames. *)
Definition log_of_run (frames : list (string * string)) : list record :=
  fold_left log_frame frames [].

End WithRuntime.
End OcrSave.

(* ------------------------------------------------------------------ *)
(** * More of the design's vocabulary *)
(* ------------------------------------------------------------------ *)

Module Vocabulary.

(** The words of [l] that differ from the word before them, [prev] being the
    word before the first. *)
Fixpoint changes (prev : string) (l : list string) : list string :=
  match l with
  | [] => []
  | x :: l' =>
      if String.eqb x prev then changes x l' else x :: changes x l'
  end.

(** "consecutive-duplicate collapse": each run of equal words gives one. *)
Definition collapse (l : list string) : list string :=
  match l with
  | [] => []
  | x :: l' => x :: changes x l'
  end.

(** No word equals the word after it. *)
Fixpoint no_repeat (l : list string) : Prop :=
  match l with
  | [] => True
  | x :: l' =>
      match l' with
      | [] => True
      | y :: _ => x <> y /\ no_repeat l'
      end
  end.

(** The invariants of a DetectionEvent: at least one word,
    [non_duplicate_count <= total_word_count], the length of [words] equal
    to [non_duplicate_count], at most 5 keywords, and no word of [words]
    repeated at once. *)
Definition well_formed_event (r : record) : Prop :=
  (1 <= non_duplicate_count r <= total_words_detected r)%Z
  /\ non_duplicate_count r = Z.of_nat (length (detected_words_list r))
  /\ length (keywords r) <= 5
  /\ no_repeat (detected_words_list r).

(** The key events "in per-event scan order": for each event in turn, its
    activity flag, then the gap that separates it from the event before. *)
Fixpoint keyEvents (prev : option timed_record) (events : list timed_record)
    (activityThreshold : Z) (gapThresholdSeconds : Q) : list event :=
  match events with
  | [] => []
  | cur :: rest =>
      List.app
        (if (activityThreshold <=? non_duplicate_count (rec cur))%Z
         then [HighActivity (timestamp (rec cur))
                            (non_duplicate_count (rec cur))]
         else [])
        (List.app
           (match prev with
            | None => []
            | Some p =>
                let deltaSeconds :=
                  total_seconds (dt_time cur - dt_time p)%Z in
                if Qle_bool gapThresholdSeconds deltaSeconds
                then [PauseBreak (timestamp (rec p)) (timestamp (rec cur))
                                 deltaSeconds]
                else []
            end)
           (keyEvents (Some cur) rest activityThreshold gapThresholdSeconds))
  end.

(** A content word of the summarizer: alphanumeric and no stop-word. *)
Definition content_word {TX : TextRuntime} (word : string) : bool :=
  str_isalnum word && negb (existsb (String.eqb word) stopwords_english).

End Vocabulary.

(* ------------------------------------------------------------------ *)
(** * An executable instance for the capture scripts *)
(* ------------------------------------------------------------------ *)

Module CaptureRules.

Definition is_word_char (c : ascii) : bool :=
  Rules.is_digit c || Rules.is_upper c || Rules.is_lower c
  || Ascii.eqb c "_".

Fixpoint rules_strip (s : string) : string :=
  match s with
  | EmptyString => EmptyString
  | String c s' =>
      if is_word_char c || Rules.is_space c then String c (rules_strip s')
      else rules_strip s'
  end.

#[export] Instance capture : CaptureRuntime := {|
  strip_punctuation := rules_strip;
  lower_text := Rules.rules_lower;
  str_split := Rules.tokens [];
  str_len := String.length
|}.

(** Three frames: a text with repeated words, a frame with nothing to read,
    and a text of stop-words and a single letter. *)
Definition frames : list (string * string) :=
  [ ("09:00:00", "The cat, the CAT! The cat sat; sat on a mat.");
    ("09:00:01", "?? -- !");
    ("09:00:02", "It is I.") ].

(** A log of two events at the same time and one before them. *)
Definition tied_log : list record :=
  [ {| timestamp := "09:00:05"; total_words_detected := 2;
       non_duplicate_count := 2; keywords := ["first"];
       detected_words_list := ["first"; "tie"] |};
    {| timestamp := "09:00:05.000"; total_words_detected := 2;
       non_duplicate_count := 2; keywords := ["second"];
       detected_words_list := ["second"; "tie"] |};
    {| timestamp := "09:00:01"; total_words_detected := 1;
       non_duplicate_count := 1; keywords := ["early"];
       detected_words_list := ["early"] |} ].

(** A log whose events carry no words. *)
Definition wordless_log : list record :=
  [ {| timestamp := "09:00:05"; total_words_detected := 0;
       non_duplicate_count := 0; keywords := [];
       detected_words_list := [] |} ].

(** A word stream of five sentences, the word [cats] the most frequent. *)
Definition five_sentences : list string :=
  [ "cats"; "eat"; "fish."; "dogs"; "eat"; "cats."; "birds"; "fly.";
    "fish"; "swim."; "cats"; "sleep." ].

End CaptureRules.

(* ------------------------------------------------------------------ *)
(** * Sample inputs *)
(* ------------------------------------------------------------------ *)

Module Samples.

(** A log of three events, nine seconds between the last two, the last one
    dense; and the same log with a record whose timestamp is no time. *)
Definition event1 : record :=
  {| timestamp := "09:00:00.000"; total_words_detected := 12;
     non_duplicate_count := 10; keywords := ["alpha"; "beta"];
     detected_words_list := ["alpha"; "beta"; "alpha"] |}.

Definition event2 : record :=
  {| timestamp := "09:00:03.000"; total_words_detected := 5;
     non_duplicate_count := 5; keywords := ["beta"; "gamma"];
     detected_words_list := ["beta"; "gamma"] |}.

Definition event3 : record :=
  {| timestamp := "09:00:12.000"; total_words_detected := 60;
     non_duplicate_count := 55; keywords := ["gamma"];
     detected_words_list := ["gamma"; "gamma"] |}.

Definition bad_event : record :=
  {| timestamp := "nine o'clock"; total_words_detected := 3;
     non_duplicate_count := 3; keywords := ["zeta"];
     detected_words_list := ["zeta"] |}.

Definition good_log : list record := [event3; event1; event2].
Definition log_with_bad_timestamp : list record :=
  [event3; bad_event; event1; event2].

(** Three parsed events at [t], two seconds later and eight seconds later. *)
Definition at_offsets (t : datetime) (e1 e2 e3 : record) : list timed_record :=
  [ {| rec := e1; dt_time := t |};
    {| rec := e2; dt_time := (t + 2000000)%Z |};
    {| rec := e3; dt_time := (t + 8000000)%Z |} ].

(** An event with a given count. *)
Definition counting (n : Z) : timed_record :=
  {| rec := {| timestamp := "10:00:00.000"; total_words_detected := n;
               non_duplicate_count := n; keywords := [];
               detected_words_list := [] |};
     dt_time := 36000000000%Z |}.

(** Word streams.  The first has a sentence of exactly thirty words, then
    three short ones. *)
Definition thirty_words : list string := repeat "cats" 29 ++ ["cats."].
Definition thirty_word_sentence : string := Py.join " " thirty_words.
Definition stream_with_thirty : list string :=
  thirty_words ++ ["dogs"; "bark."; "birds"; "fly."; "fish"; "swim."].

(** Two sentences, an empty word between them. *)
Definition stream_with_empty_word : list string := ["Hello."; EmptyString; "World."].

(** Two sentences, nothing unusual. *)
Definition short_stream : list string := ["Hello"; "there."; "Good"; "day."].

(** Four sentences of one stop-word each. *)
Definition stream_of_stopwords : list string := ["the."; "the."; "the."; "the."].

(** Four sentences of thirty words each. *)
Definition stream_of_long_sentences : list string :=
  thirty_words ++ thirty_words ++ thirty_words ++ thirty_words.

End Samples.

(* ------------------------------------------------------------------ *)
(** * Facts about the built-ins *)
(* ------------------------------------------------------------------ *)

Module PyFacts.
Import Py.

(** ** [sum] *)

Lemma fold_left_add_shift (l : list Z) (a : Z) :
  fold_left Z.add l a = (a + fold_left Z.add l 0)%Z.
Proof.
  revert a; induction l as [|x l IH]; intros a; simpl.
  - lia.
  - rewrite IH, (IH x). lia.
Qed.

Lemma sum_cons (x : Z) (l : list Z) : sum (x :: l) = (x + sum l)%Z.
Proof. unfold sum; simpl. apply fold_left_add_shift. Qed.

Lemma sum_permutation (l l' : list Z) : Permutation l l' -> sum l = sum l'.
Proof.
  induction 1 as [|x l l' _ IH|x y l|l l' l'' _ IH1 _ IH2].
  - reflexivity.
  - rewrite !sum_cons, IH; reflexivity.
  - rewrite !sum_cons; lia.
  - congruence.
Qed.

(** ** Sorting *)

Section SortingFacts.
Context {A K : Type} (leb : K -> K -> bool) (key : A -> K).

Lemma insert_asc_permutation (x : A) (l : list A) :
  Permutation (x :: l) (insert_asc leb key x l).
Proof.
  induction l as [|y l IH]; simpl.
  - apply Permutation_refl.
  - destruct (leb (key x) (key y)).
    + apply Permutation_refl.
    + eapply perm_trans; [apply perm_swap|]. now apply perm_skip.
Qed.

Lemma sorted_permutation (l : list A) : Permutation l (sorted leb key l).
Proof.
  induction l as [|x l IH]; simpl.
  - apply perm_nil.
  - eapply perm_trans; [apply perm_skip, IH|]. apply insert_asc_permutation.
Qed.

Lemma insert_desc_permutation (x : A) (l : list A) :
  Permutation (x :: l) (insert_desc leb key x l).
Proof.
  induction l as [|y l IH]; simpl.
  - apply Permutation_refl.
  - destruct (leb (key y) (key x)).
    + apply Permutation_refl.
    + eapply perm_trans; [apply perm_swap|]. now apply perm_skip.
Qed.

Lemma sorted_reverse_permutation (l : list A) :
  Permutation l (sorted_reverse leb key l).
Proof.
  induction l as [|x l IH]; simpl.
  - apply perm_nil.
  - eapply perm_trans; [apply perm_skip, IH|]. apply insert_desc_permutation.
Qed.

Lemma nlargest_incl (n : nat) (l : list A) (x : A) :
  In x (nlargest leb key n l) -> In x l.
Proof.
  unfold nlargest; intros H.
  apply (Permutation_in x (Permutation_sym (sorted_reverse_permutation l))).
  rewrite <- (firstn_skipn n). apply in_or_app; now left.
Qed.

Lemma nlargest_all (n : nat) (l : list A) :
  length l <= n -> Permutation l (nlargest leb key n l).
Proof.
  intros H. unfold nlargest. rewrite firstn_all2.
  - apply sorted_reverse_permutation.
  - now rewrite <- (Permutation_length (sorted_reverse_permutation l)).
Qed.

Lemma nlargest_length (n : nat) (l : list A) :
  length (nlargest leb key n l) <= n.
Proof. unfold nlargest. apply firstn_le_length. Qed.
End SortingFacts.

(** A stable descending sort orders by key, and equal keys by place. *)
Section Ranking.
Context {A : Type} (key : A -> Z) (pos : A -> nat).

Lemma insert_desc_ranked (x : A) (s : list A) :
  StronglySorted (outranks key pos) s ->
  Forall (fun y => pos x < pos y) s ->
  StronglySorted (outranks key pos) (insert_desc Z.leb key x s).
Proof.
  induction s as [|y s IH]; intros Hs Hx; simpl.
  - constructor; constructor.
  - inversion Hs as [|? ? Hs' Hy]; subst.
    inversion Hx as [|? ? Hxy Hx']; subst.
    destruct (Z.leb_spec (key y) (key x)) as [Hle|Hlt].
    + constructor; [assumption|].
      constructor.
      * destruct (Z.eq_dec (key x) (key y)) as [E|N];
          [right; split; assumption | left; lia].
      * rewrite Forall_forall in *. intros z Hz.
        specialize (Hy z Hz). specialize (Hx' z Hz).
        destruct Hy as [Hy|[Hy _]].
        -- left; lia.
        -- destruct (Z.eq_dec (key x) (key z)) as [E|N];
             [right; split; assumption | left; lia].
    + constructor; [now apply IH|].
      rewrite Forall_forall in *. intros z Hz.
      apply (Permutation_in z
               (Permutation_sym (insert_desc_permutation Z.leb key x s)))
        in Hz.
      destruct Hz as [<-|Hz]; [left; assumption | now apply Hy].
Qed.

Lemma sorted_reverse_ranked (l : list A) :
  StronglySorted (fun a b => pos a < pos b) l ->
  StronglySorted (outranks key pos) (sorted_reverse Z.leb key l).
Proof.
  induction l as [|x l IH]; intros H; simpl.
  - constructor.
  - inversion H as [|? ? Hl Hx]; subst.
    apply insert_desc_ranked; [now apply IH|].
    rewrite Forall_forall in *. intros y Hy. apply Hx.
    now apply (Permutation_in y
                 (Permutation_sym (sorted_reverse_permutation Z.leb key l))).
Qed.
End Ranking.

Lemma StronglySorted_app_cross {A : Type} (R : A -> A -> Prop)
    (l1 l2 : list A) :
  StronglySorted R (l1 ++ l2) ->
  StronglySorted R l1 /\ forall x y, In x l1 -> In y l2 -> R x y.
Proof.
  induction l1 as [|a l1 IH]; simpl; intros H.
  - split; [constructor | intros x y []].
  - inversion H as [|? ? Hs Ha]; subst.
    destruct (IH Hs) as [H1 Hc]. rewrite Forall_forall in Ha. split.
    + constructor; [assumption|].
      rewrite Forall_forall; intros z Hz. apply Ha, in_or_app; now left.
    + intros x y [<-|Hx] Hy.
      * apply Ha, in_or_app; now right.
      * now apply Hc.
Qed.

End PyFacts.

(** ** Dictionaries *)

Module DictFacts.
Import Py.

Section Facts.
Context {V : Type}.
Implicit Types (d : dict V) (k : string) (v : V).

Lemma dict_get_none_iff d k : dict_get d k = None <-> ~ In k (keys d).
Proof.
  induction d as [|[k' v'] d IH]; simpl.
  - tauto.
  - destruct (String.eqb_spec k' k) as [->|N].
    + split; [discriminate | intros H; exfalso; apply H; now left].
    + rewrite IH. split.
      * intros H [E|I]; [now apply N | now apply H].
      * intros H I. apply H; now right.
Qed.

Lemma dict_mem_iff d k : dict_mem d k = true <-> In k (keys d).
Proof.
  unfold dict_mem. pose proof (dict_get_none_iff d k) as H.
  destruct (dict_get d k).
  - split; [intros _|reflexivity].
    destruct (in_dec string_dec k (keys d)) as [I|N]; [assumption|].
    apply H in N; discriminate.
  - split; [discriminate|]. intros I. exfalso. now apply (proj1 H).
Qed.

Lemma dict_set_keys d k v k' :
  In k' (keys (dict_set d k v)) <-> In k' (keys d) \/ k' = k.
Proof.
  induction d as [|[k0 v0] d IH]; simpl.
  - split; [intros [E|[]]; right; now symmetry | intros [[]|E]; left; now symmetry].
  - destruct (String.eqb_spec k0 k) as [->|N]; simpl.
    + split; [intros [E|I]; left; [now left|now right] |].
      intros [[E|I]|E]; [now left|now right|left; now symmetry].
    + rewrite IH. tauto.
Qed.

Lemma dict_set_present d k v : In k (keys d) -> keys (dict_set d k v) = keys d.
Proof.
  induction d as [|[k0 v0] d IH]; simpl; [intros []|].
  destruct (String.eqb_spec k0 k) as [->|N]; simpl; [reflexivity|].
  intros [E|I]; [contradiction|]. now rewrite IH.
Qed.

Lemma dict_set_absent d k v : ~ In k (keys d) -> dict_set d k v = List.app d [(k, v)].
Proof.
  induction d as [|[k0 v0] d IH]; simpl; [reflexivity|].
  intros H. destruct (String.eqb_spec k0 k) as [->|N].
  - exfalso; apply H; now left.
  - rewrite IH; [reflexivity|]. intros I; apply H; now right.
Qed.

(** After [d[k] = v] every item is the new one or an old one under
    another key, provided the keys of [d] are distinct. *)
Lemma dict_set_items d k v kv :
  NoDup (keys d) -> In kv (dict_set d k v) ->
  kv = (k, v) \/ (In kv d /\ fst kv <> k).
Proof.
  induction d as [|[k0 v0] d IH]; simpl; intros ND H.
  - destruct H as [<-|[]]; now left.
  - inversion ND as [|? ? Hn ND']; subst.
    destruct (String.eqb_spec k0 k) as [->|N]; simpl in H.
    + destruct H as [<-|I]; [now left|]. right. split; [now right|].
      intros E. apply Hn. unfold keys. rewrite <- E. now apply in_map.
    + destruct H as [<-|I].
      * right. split; [now left | exact N].
      * destruct (IH ND' I) as [E|[I' Nk]]; [now left|]. right.
        split; [now right | exact Nk].
Qed.

Lemma dict_get_in d k v : dict_get d k = Some v -> In (k, v) d.
Proof.
  induction d as [|[k0 v0] d IH]; simpl; [discriminate|].
  destruct (String.eqb_spec k0 k) as [->|N].
  - intros [= ->]. now left.
  - intros H. right. now apply IH.
Qed.
End Facts.

End DictFacts.

(* ------------------------------------------------------------------ *)
(** * The extractive summarizer *)
(* ------------------------------------------------------------------ *)

Module SummarizerFacts.
Import Py DictFacts SmartAnalyzer.

Section Facts.
Context {TX : TextRuntime} {SA : ScoreArith}.
Implicit Types (wf d : dict score) (s k w : string).

(** One word either leaves the scores alone or writes the score of its
    sentence; it writes only for a word that has a frequency and a
    sentence of fewer than 30 items. *)
Lemma score_word_cases wf s d w :
  score_word wf s d w = d
  \/ (dict_mem wf w = true /\ length (split " " s) < 30
      /\ exists v, score_word wf s d w = dict_set d s v).
Proof.
  unfold score_word, dict_mem.
  destruct (dict_get wf w) as [f|]; [|now left].
  destruct (Nat.ltb_spec (length (split " " s)) 30) as [Hlt|Hge]; [|now left].
  right. repeat split; [assumption|].
  destruct (dict_get d s); eexists; reflexivity.
Qed.

Lemma score_word_keeps wf s d w k :
  In k (keys d) -> In k (keys (score_word wf s d w)).
Proof.
  intros H. destruct (score_word_cases wf s d w) as [->|(_ & _ & v & ->)].
  - assumption.
  - apply dict_set_keys; now left.
Qed.

Lemma score_word_origin wf s d w k :
  In k (keys (score_word wf s d w)) ->
  In k (keys d)
  \/ (k = s /\ length (split " " s) < 30 /\ dict_mem wf w = true).
Proof.
  destruct (score_word_cases wf s d w) as [->|(Hm & Hlt & v & ->)].
  - now left.
  - intros H. apply dict_set_keys in H. destruct H as [H|H]; [now left|].
    right. now repeat split.
Qed.

Lemma score_word_hits wf s d w :
  dict_mem wf w = true -> length (split " " s) < 30 ->
  In s (keys (score_word wf s d w)).
Proof.
  unfold score_word, dict_mem. intros Hm Hlt.
  destruct (dict_get wf w) as [f|]; [|discriminate].
  apply Nat.ltb_lt in Hlt. rewrite Hlt.
  destruct (dict_get d s); apply dict_set_keys; now right.
Qed.

(** The same, for all the words of a sentence. *)
Lemma score_words_keeps wf s ws d k :
  In k (keys d) -> In k (keys (fold_left (score_word wf s) ws d)).
Proof.
  revert d; induction ws as [|w ws IH]; intros d H; simpl; [assumption|].
  apply IH. now apply score_word_keeps.
Qed.

Lemma score_words_origin wf s ws d k :
  In k (keys (fold_left (score_word wf s) ws d)) ->
  In k (keys d)
  \/ (k = s /\ length (split " " s) < 30
      /\ exists w, In w ws /\ dict_mem wf w = true).
Proof.
  revert d; induction ws as [|w ws IH]; intros d H; simpl in *; [now left|].
  destruct (IH _ H) as [H'|(E & Hlt & w' & Hin & Hm)].
  - destruct (score_word_origin _ _ _ _ _ H') as [H''|(E & Hlt & Hm)];
      [now left|].
    right. repeat split; try assumption. exists w. split; [now left|assumption].
  - right. repeat split; try assumption. exists w'. split; [now right|assumption].
Qed.

Lemma score_words_hits wf s ws d w :
  In w ws -> dict_mem wf w = true -> length (split " " s) < 30 ->
  In s (keys (fold_left (score_word wf s) ws d)).
Proof.
  revert d; induction ws as [|w0 ws IH]; intros d Hin Hm Hlt; simpl.
  - destruct Hin.
  - destruct Hin as [->|Hin].
    + apply score_words_keeps. now apply score_word_hits.
    + now apply IH.
Qed.

(** And for all the sentences of a text. *)
Lemma score_sentences_keeps wf ss d k :
  In k (keys d) -> In k (keys (fold_left (score_sentence wf) ss d)).
Proof.
  revert d; induction ss as [|s ss IH]; intros d H; simpl; [assumption|].
  apply IH. unfold score_sentence. now apply score_words_keeps.
Qed.

Lemma score_sentences_origin wf ss d k :
  In k (keys (fold_left (score_sentence wf) ss d)) ->
  In k (keys d)
  \/ (In k ss /\ length (split " " k) < 30
      /\ exists w, In w (word_tokenize (str_lower k)) /\ dict_mem wf w = true).
Proof.
  revert d; induction ss as [|s ss IH]; intros d H; simpl in *; [now left|].
  destruct (IH _ H) as [H'|(Hin & Hlt & Hw)].
  - unfold score_sentence in H'.
    destruct (score_words_origin _ _ _ _ _ H') as [H''|(-> & Hlt & Hw)];
      [now left|].
    right. repeat split; [now left|assumption|assumption].
  - right. repeat split; [now right|assumption|assumption].
Qed.

Lemma score_sentences_hits wf ss d s w :
  In s ss -> In w (word_tokenize (str_lower s)) -> dict_mem wf w = true ->
  length (split " " s) < 30 ->
  In s (keys (fold_left (score_sentence wf) ss d)).
Proof.
  revert d; induction ss as [|s0 ss IH]; intros d Hin Hw Hm Hlt; simpl.
  - destruct Hin.
  - destruct Hin as [->|Hin].
    + apply score_sentences_keeps. unfold score_sentence.
      now apply score_words_hits with (w := w).
    + now apply IH.
Qed.

(** What is selected has a score. *)
Lemma summary_sentences_scored n (d : dict score) s :
  In s (summary_sentences_of n d) -> In s (keys d).
Proof.
  unfold summary_sentences_of, keys. rewrite !in_map_iff.
  intros (kv & E & H). exists kv. split; [assumption|].
  now apply PyFacts.nlargest_incl in H.
Qed.

(** With room for all, all that have a score are selected. *)
Lemma summary_sentences_all n (d : dict score) s :
  length d <= n -> In s (keys d) -> In s (summary_sentences_of n d).
Proof.
  unfold summary_sentences_of, keys. rewrite !in_map_iff.
  intros Hn (kv & E & H). exists kv. split; [assumption|].
  now apply (Permutation_in kv (PyFacts.nlargest_all score_leb snd n d Hn)).
Qed.

(** Words that are stop-words or not alphanumeric leave no frequency. *)
Lemma count_content_words_none stop ws (d : dict Z) :
  Forall (fun w => str_isalnum w = false \/ In w stop) ws ->
  fold_left (count_content_word stop) ws d = d.
Proof.
  revert d; induction ws as [|w ws IH]; intros d H; simpl; [reflexivity|].
  inversion H as [|? ? Hw Hws]; subst.
  assert (E : count_content_word stop d w = d).
  { unfold count_content_word. destruct Hw as [->|Hin]; [reflexivity|].
    replace (existsb (String.eqb w) stop) with true.
    - now rewrite andb_false_r.
    - symmetry. apply existsb_exists. exists w. split; [assumption|].
      apply String.eqb_refl. }
  rewrite E. now apply IH.
Qed.

Lemma generate_extractive_summary_long (all_words : list string) n :
  all_words <> [] ->
  n <= length (sent_tokenize (join " " all_words)) ->
  generate_extractive_summary all_words n
  = join " " (summary_sentences_of
                n (sentence_scores_of (join " " all_words))).
Proof.
  intros Hne Hn. unfold generate_extractive_summary.
  destruct all_words as [|w ws]; [contradiction|].
  apply Nat.ltb_ge in Hn. now rewrite Hn.
Qed.
End Facts.

End SummarizerFacts.

(* ------------------------------------------------------------------ *)
(** * Properties of the extractive summarizer *)
(* ------------------------------------------------------------------ *)

Import Py SmartAnalyzer.

(** C1 (as the code has it).  On a word stream that the segmenter cuts into
    at least [n] sentences, the summary is the selected sentences joined by
    single spaces, and for every sentence of the text: if it splits on
    spaces into 30 items or more, it gets no score and is not selected; if
    it splits into fewer than 30 (29 or fewer) and one of its tokens has a
    frequency, it gets a score, and is selected whenever no more than [n]
    sentences have one. *)
Theorem C1_thirty_or_more_items_excluded
    {TX : TextRuntime} {SA : ScoreArith}
    (all_words : list string) (n : nat) (sentence : string) :
  all_words <> [] ->
  n <= length (sent_tokenize (join " " all_words)) ->
  In sentence (sent_tokenize (join " " all_words)) ->
  let text := join " " all_words in
  let sentence_scores := sentence_scores_of text in
  generate_extractive_summary all_words n
  = join " " (summary_sentences_of n sentence_scores)
  /\ (30 <= length (split " " sentence) ->
      ~ In sentence (keys sentence_scores)
      /\ ~ In sentence (summary_sentences_of n sentence_scores))
  /\ (length (split " " sentence) < 30 ->
      (exists w, In w (word_tokenize (str_lower sentence))
                 /\ dict_mem (word_frequencies_of text) w = true) ->
      In sentence (keys sentence_scores)
      /\ (length sentence_scores <= n ->
          In sentence (summary_sentences_of n sentence_scores))).
Proof.
  intros Hne Hn Hin text sentence_scores.
  split; [now apply SummarizerFacts.generate_extractive_summary_long|].
  split.
  - intros Hge.
    assert (Hk : ~ In sentence (keys sentence_scores)).
    { intros Hk. unfold sentence_scores, sentence_scores_of in Hk.
      apply SummarizerFacts.score_sentences_origin in Hk.
      destruct Hk as [[]|(_ & Hlt & _)]. lia. }
    split; [exact Hk|].
    intros Hs. apply Hk. eapply SummarizerFacts.summary_sentences_scored, Hs.
  - intros Hlt (w & Hw & Hm).
    assert (Hk : In sentence (keys sentence_scores)).
    { unfold sentence_scores, sentence_scores_of.
      now apply SummarizerFacts.score_sentences_hits with (w := w). }
    split; [exact Hk|].
    intros Hroom. now apply SummarizerFacts.summary_sentences_all.
Qed.

(** C1, a run: in the stream with a sentence of thirty words, the sentence
    of two words that follows it is scored and selected. *)
Lemma C1_thirty_or_more_items_excluded_witness :
  let text := join " " Samples.stream_with_thirty in
  In "dogs bark."
     (summary_sentences_of (SA := Rules.scores) 4
        (sentence_scores_of (TX := Rules.text) (SA := Rules.scores) text)).
Proof.
  intros text.
  refine (proj2 (proj2 (proj2
    (@C1_thirty_or_more_items_excluded Rules.text Rules.scores
       Samples.stream_with_thirty 4 "dogs bark." _ _ _)) _ _) _).
  - discriminate.
  - vm_compute. lia.
  - vm_compute. tauto.
  - vm_compute. lia.
  - exists "dogs". split; vm_compute; tauto.
  - vm_compute. lia.
Defined.

(** C1 as worded fails: a sentence of exactly thirty words, every one of
    them a content word, is "30 or fewer" and yet gets no score. *)
Lemma C1_exactly_thirty_not_eligible :
  let text := join " " Samples.stream_with_thirty in
  ~ (forall sentence : string,
        In sentence (sent_tokenize (TextRuntime := Rules.text) text) ->
        length (split " " sentence) <= 30 ->
        (exists w,
            In w (word_tokenize (TextRuntime := Rules.text)
                    (str_lower (TextRuntime := Rules.text) sentence))
            /\ dict_mem (word_frequencies_of (TX := Rules.text)
                           (SA := Rules.scores) text) w = true) ->
        In sentence
           (keys (sentence_scores_of (TX := Rules.text) (SA := Rules.scores)
                    text))).
Proof.
  intros text H.
  specialize (H Samples.thirty_word_sentence).
  assert (Hk : In Samples.thirty_word_sentence
                  (keys (sentence_scores_of (TX := Rules.text)
                           (SA := Rules.scores) text))).
  { apply H.
    - vm_compute. tauto.
    - vm_compute. lia.
    - exists "cats". split; vm_compute; tauto. }
  vm_compute in Hk.
  repeat (destruct Hk as [Hk|Hk]; [discriminate Hk|]).
  exact Hk.
Qed.

(** C3.  On the empty word stream the summarizer returns its fixed message,
    which is not the empty string; the function is total, so nothing is
    raised. *)
Theorem C3_empty_stream_fixed_message
    {TX : TextRuntime} {SA : ScoreArith} (n : nat) :
  generate_extractive_summary [] n
  = "Not enough coherent text detected to generate a narrative summary."
  /\ generate_extractive_summary [] n <> EmptyString.
Proof. split; [reflexivity | discriminate]. Qed.

(** C4 (as the code has it).  On a non-empty word stream that the segmenter
    cuts into fewer than [n] sentences, the summary is those sentences, all
    of them and in their order, joined by single spaces; nothing is scored
    and nothing is cut. *)
Theorem C4_short_text_joins_its_sentences
    {TX : TextRuntime} {SA : ScoreArith} (all_words : list string) (n : nat) :
  all_words <> [] ->
  length (sent_tokenize (join " " all_words)) < n ->
  generate_extractive_summary all_words n
  = join " " (sent_tokenize (join " " all_words)).
Proof.
  intros Hne Hn. unfold generate_extractive_summary.
  destruct all_words as [|w ws]; [contradiction|].
  apply Nat.ltb_lt in Hn. now rewrite Hn.
Qed.

(** C4, a run: two sentences, four asked for. *)
Lemma C4_short_text_joins_its_sentences_witness :
  generate_extractive_summary (TX := Rules.text) (SA := Rules.scores)
    Samples.short_stream default_num_sentences
  = "Hello there. Good day.".
Proof.
  rewrite (@C4_short_text_joins_its_sentences Rules.text Rules.scores
             Samples.short_stream default_num_sentences).
  - reflexivity.
  - discriminate.
  - vm_compute. lia.
Defined.

(** C4 as worded fails: with an empty word between two sentences the
    reconstructed text has two spaces there, the summary one. *)
Lemma C4_summary_is_not_the_text :
  Samples.stream_with_empty_word <> []
  /\ length (sent_tokenize (TextRuntime := Rules.text)
               (join " " Samples.stream_with_empty_word))
     < default_num_sentences
  /\ join " " Samples.stream_with_empty_word = "Hello.  World."
  /\ generate_extractive_summary (TX := Rules.text) (SA := Rules.scores)
       Samples.stream_with_empty_word default_num_sentences
     = "Hello. World."
  /\ generate_extractive_summary (TX := Rules.text) (SA := Rules.scores)
       Samples.stream_with_empty_word default_num_sentences
     <> join " " Samples.stream_with_empty_word.
Proof.
  split; [discriminate|]. split; [vm_compute; lia|].
  split; [reflexivity|]. split; [reflexivity|].
  vm_compute. discriminate.
Qed.

(** C10.  On a non-empty word stream cut into at least [n] sentences, if
    every token of the text is a stop-word or not alphanumeric, or if every
    sentence splits on spaces into 30 items or more, then no sentence gets a
    score and the summary is the empty string, not the message of the empty
    stream. *)
Theorem C10_nonempty_stream_empty_summary
    {TX : TextRuntime} {SA : ScoreArith} (all_words : list string) (n : nat) :
  all_words <> [] ->
  n <= length (sent_tokenize (join " " all_words)) ->
  Forall (fun w => str_isalnum w = false \/ In w stopwords_english)
         (word_tokenize (str_lower (join " " all_words)))
  \/ Forall (fun s => 30 <= length (split " " s))
            (sent_tokenize (join " " all_words)) ->
  sentence_scores_of (join " " all_words) = []
  /\ generate_extractive_summary all_words n = EmptyString
  /\ generate_extractive_summary all_words n
     <> generate_extractive_summary [] n.
Proof.
  intros Hne Hn Hcases.
  assert (Hempty : sentence_scores_of (join " " all_words) = []).
  { destruct (sentence_scores_of (join " " all_words)) as [|[k v] d] eqn:E;
      [reflexivity|exfalso].
    assert (Hk : In k (keys (sentence_scores_of (join " " all_words)))).
    { rewrite E. now left. }
    unfold sentence_scores_of in Hk.
    apply SummarizerFacts.score_sentences_origin in Hk.
    destruct Hk as [[]|(Hin & Hlt & w & Hw & Hm)].
    destruct Hcases as [Hstop|Hlong].
    - unfold word_frequencies_of in Hm.
      rewrite SummarizerFacts.count_content_words_none in Hm by assumption.
      discriminate Hm.
    - rewrite Forall_forall in Hlong. specialize (Hlong k Hin). lia. }
  split; [exact Hempty|].
  rewrite SummarizerFacts.generate_extractive_summary_long by assumption.
  rewrite Hempty. unfold summary_sentences_of, nlargest. simpl.
  rewrite firstn_nil. simpl. split; [reflexivity | discriminate].
Qed.

(** C10, two runs: four sentences of one stop-word each, and four sentences
    of thirty words each. *)
Lemma C10_nonempty_stream_empty_summary_witness :
  generate_extractive_summary (TX := Rules.text) (SA := Rules.scores)
    Samples.stream_of_stopwords default_num_sentences = EmptyString
  /\ generate_extractive_summary (TX := Rules.text) (SA := Rules.scores)
       Samples.stream_of_long_sentences default_num_sentences = EmptyString.
Proof.
  split.
  - refine (proj1 (proj2
      (@C10_nonempty_stream_empty_summary Rules.text Rules.scores
         Samples.stream_of_stopwords default_num_sentences _ _ _))).
    + discriminate.
    + vm_compute. lia.
    + left. vm_compute.
      repeat (constructor; [first [left; reflexivity | right; tauto]|]).
      constructor.
  - refine (proj1 (proj2
      (@C10_nonempty_stream_empty_summary Rules.text Rules.scores
         Samples.stream_of_long_sentences default_num_sentences _ _ _))).
    + discriminate.
    + vm_compute. lia.
    + right. vm_compute. repeat (constructor; [lia|]). constructor.
Defined.

(* ------------------------------------------------------------------ *)
(** * The analysis: parsing, sorting, scanning *)
(* ------------------------------------------------------------------ *)

Module AnalysisFacts.
Import Design.

Local Open Scope list_scope.

Section ParseLoop.
Context {TR : TimeRuntime}.

(** [parse_timestamp] fails exactly on the timestamps in neither format. *)
Lemma parse_timestamp_parsedTime (time_str : string) (r : record) :
  timestamp r = time_str ->
  match Analyzer.parse_timestamp time_str with
  | inr t => parsedTime r = Some t
  | inl _ => parsedTime r = None
  end.
Proof.
  intros <-. unfold Analyzer.parse_timestamp, parsedTime.
  destruct (strptime (timestamp r) "%H:%M:%S.%f"); [reflexivity|].
  destruct (strptime (timestamp r) "%H:%M:%S"); reflexivity.
Qed.

(** The first analyzer's loop: a warning for each dropped event, the
    valid ones kept in order. *)
Lemma analyzer_parse_loop (log_data : list record)
    (stdout : list string) (timed_records : list timed_record) :
  fold_left Analyzer.parse_record log_data (stdout, timed_records)
  = (List.app stdout
       (map (fun r => ("[WARNING] Skipping record due to bad timestamp: "
                         ++ timestamp r)%string)
            (droppedEvents log_data)),
     List.app timed_records (timedEvents log_data)).
Proof.
  revert stdout timed_records.
  induction log_data as [|r log_data IH]; intros stdout timed_records; simpl.
  - now rewrite !app_nil_r.
  - pose proof (parse_timestamp_parsedTime (timestamp r) r eq_refl) as H.
    unfold parses.
    destruct (Analyzer.parse_timestamp (timestamp r)) as [e|t];
      rewrite H, IH; simpl; now rewrite <- !app_assoc.
Qed.

(** The second analyzer's loop keeps the same events. *)
Lemma smart_analyzer_parse_loop (log_data : list record)
    (timed_records : list timed_record) :
  fold_left SmartAnalyzer.parse_record log_data timed_records
  = List.app timed_records (timedEvents log_data).
Proof.
  revert timed_records.
  induction log_data as [|r log_data IH]; intros timed_records; simpl.
  - now rewrite app_nil_r.
  - pose proof (parse_timestamp_parsedTime (timestamp r) r eq_refl) as H.
    unfold SmartAnalyzer.parse_record.
    change (SmartAnalyzer.parse_timestamp (timestamp r))
      with (Analyzer.parse_timestamp (timestamp r)).
    destruct (Analyzer.parse_timestamp (timestamp r)) as [e|t];
      rewrite H, IH; simpl; now rewrite <- ?app_assoc.
Qed.

Lemma timedEvents_rec (log_data : list record) :
  map rec (timedEvents log_data) = validEvents log_data.
Proof.
  induction log_data as [|r log_data IH]; simpl; [reflexivity|].
  unfold parses. destruct (parsedTime r); simpl; now rewrite IH.
Qed.

(** A record with a bad timestamp leaves the valid events as they are
    without it. *)
Lemma timedEvents_skips (before after : list record) (r : record) :
  parsedTime r = None ->
  timedEvents (before ++ r :: after) = timedEvents (before ++ after).
Proof.
  intros H. unfold timedEvents. rewrite !flat_map_app. simpl.
  now rewrite H.
Qed.
End ParseLoop.

(** ** Sorting by time *)

Lemma insert_asc_time_sorted (x : timed_record) (l : list timed_record) :
  StronglySorted (fun a b => (dt_time a <= dt_time b)%Z) l ->
  StronglySorted (fun a b => (dt_time a <= dt_time b)%Z)
                 (Py.insert_asc Z.leb dt_time x l).
Proof.
  induction l as [|y l IH]; intros H; simpl.
  - constructor; constructor.
  - inversion H as [|? ? Hl Hy]; subst.
    destruct (Z.leb_spec (dt_time x) (dt_time y)) as [Hle|Hlt].
    + constructor; [assumption|]. constructor; [assumption|].
      rewrite Forall_forall in *. intros z Hz. specialize (Hy z Hz). lia.
    + constructor; [now apply IH|].
      rewrite Forall_forall in *. intros z Hz.
      apply (Permutation_in z
               (Permutation_sym
                  (PyFacts.insert_asc_permutation Z.leb dt_time x l))) in Hz.
      destruct Hz as [<-|Hz]; [lia | now apply Hy].
Qed.

Lemma sortByTime_sorted (events : list timed_record) :
  StronglySorted (fun a b => (dt_time a <= dt_time b)%Z) (sortByTime events).
Proof.
  unfold sortByTime, Py.sorted.
  induction events as [|x l IH]; simpl; [constructor|].
  now apply insert_asc_time_sorted.
Qed.

Lemma sortByTime_permutation (events : list timed_record) :
  Permutation events (sortByTime events).
Proof. apply PyFacts.sorted_permutation. Qed.

(** ** The scan for key events *)

Lemma filter_pause_activity (r : timed_record) :
  filter is_pause
    (if (Analyzer.ACTIVITY_THRESHOLD <=? non_duplicate_count (rec r))%Z
     then [HighActivity (timestamp (rec r)) (non_duplicate_count (rec r))]
     else [])
  = [].
Proof. now destruct (_ <=? _)%Z. Qed.

(** From the second record on, the scan reports the gap to the record
    before. *)
Lemma scan_pauses_from (pre : list timed_record) (p : timed_record)
    (suf : list timed_record) :
  filter is_pause
    (flat_map
       (fun ir => Analyzer.events_at ((pre ++ [p]) ++ suf) (fst ir) (snd ir))
       (combine (seq (S (length pre)) (length suf)) suf))
  = detectGaps (p :: suf) (inject_Z Analyzer.GAP_THRESHOLD_SECONDS).
Proof.
  revert pre p; induction suf as [|r suf IH]; intros pre p.
  - reflexivity.
  - cbn [length seq combine flat_map fst snd].
    rewrite filter_app.
    replace ((pre ++ [p]) ++ r :: suf) with (((pre ++ [p]) ++ [r]) ++ suf)
      by (now rewrite <- (app_assoc (pre ++ [p]) [r] suf)).
    replace (S (S (length pre))) with (S (length (pre ++ [p])))
      by (rewrite length_app; simpl; lia).
    rewrite IH.
    unfold Analyzer.events_at at 1. rewrite filter_app, filter_pause_activity.
    cbn [Nat.ltb Nat.leb app].
    replace (nth (S (length pre) - 1) (((pre ++ [p]) ++ [r]) ++ suf) r) with p.
    + unfold detectGaps, adjacent_pairs.
      cbn [tl combine flat_map fst snd].
      destruct (Qle_bool _ _); reflexivity.
    + rewrite <- !app_assoc. simpl.
      rewrite Nat.sub_0_r, nth_middle. reflexivity.
Qed.

Lemma scan_pauses (timed_records : list timed_record) :
  filter is_pause (Analyzer.scan_events timed_records)
  = detectGaps timed_records (inject_Z Analyzer.GAP_THRESHOLD_SECONDS).
Proof.
  unfold Analyzer.scan_events, Py.enumerate.
  destruct timed_records as [|r suf]; [reflexivity|].
  cbn [length seq combine flat_map fst snd].
  rewrite filter_app.
  unfold Analyzer.events_at at 1. rewrite filter_app, filter_pause_activity.
  cbn [Nat.ltb Nat.leb app filter].
  apply (scan_pauses_from [] r suf).
Qed.

Lemma scan_activities_from (all : list timed_record) (n : nat)
    (suf : list timed_record) :
  filter is_activity
    (flat_map (fun ir => Analyzer.events_at all (fst ir) (snd ir))
              (combine (seq n (length suf)) suf))
  = detectHighActivity suf Analyzer.ACTIVITY_THRESHOLD.
Proof.
  revert n; induction suf as [|r suf IH]; intros n; [reflexivity|].
  cbn [length seq combine flat_map fst snd].
  rewrite filter_app, IH.
  unfold Analyzer.events_at, detectHighActivity. rewrite filter_app.
  cbn [filter].
  destruct (Analyzer.ACTIVITY_THRESHOLD <=? non_duplicate_count (rec r))%Z;
    destruct (0 <? n)%nat; cbn [filter is_activity app map];
    try destruct (Qle_bool _ _); reflexivity.
Qed.

Lemma scan_activities (timed_records : list timed_record) :
  filter is_activity (Analyzer.scan_events timed_records)
  = detectHighActivity timed_records Analyzer.ACTIVITY_THRESHOLD.
Proof. apply scan_activities_from. Qed.

(** The line that stands for "nothing found" is neither a gap nor an
    activity. *)
Lemma important_events_filter (f : event -> bool)
    (timed_records : list timed_record) :
  f NoSignificantEvents = false ->
  filter f (Analyzer.important_events_of timed_records)
  = filter f (Analyzer.scan_events timed_records).
Proof.
  intros H. unfold Analyzer.important_events_of.
  destruct (Analyzer.scan_events timed_records); [|reflexivity].
  simpl. now rewrite H.
Qed.

(** The scan of the second analyzer is the scan of the first. *)
Lemma smart_scan_events (timed_records : list timed_record) :
  SmartAnalyzer.important_events_of timed_records
  = Analyzer.important_events_of timed_records.
Proof. reflexivity. Qed.

End AnalysisFacts.

(* ------------------------------------------------------------------ *)
(** * Properties of the analysis *)
(* ------------------------------------------------------------------ *)

Import Design.

Local Open Scope list_scope.

(** What the first analyzer has in hand when it assembles its report. *)
Lemma analyzer_report {TR : TimeRuntime} (log_data : list record)
    (stdout : list string) (a : Analyzer.analysis) :
  Analyzer.analyse log_data = (stdout, inr a) ->
  stdout = map (fun r => ("[WARNING] Skipping record due to bad timestamp: "
                            ++ timestamp r)%string)
               (droppedEvents log_data)
  /\ Analyzer.total_words_read a
     = Py.sum (map (fun r => non_duplicate_count (rec r)) (session log_data))
  /\ Analyzer.word_counts a
     = Py.Counter (flat_map (fun r => detected_words_list (rec r))
                            (session log_data))
  /\ Analyzer.top_content_words a
     = map fst (Py.most_common 10 (Analyzer.word_counts a))
  /\ Analyzer.important_events a
     = Analyzer.important_events_of (session log_data).
Proof.
  unfold Analyzer.analyse. destruct log_data as [|r log_data]; [discriminate|].
  rewrite AnalysisFacts.analyzer_parse_loop. cbn [app].
  unfold session, sortByTime.
  destruct (timedEvents (r :: log_data)) as [|r0 rs]; [discriminate|].
  intros [= <- <-]. cbn. repeat split; reflexivity.
Qed.

(** The same for the second analyzer, which has printed nothing. *)
Lemma smart_analyzer_report
    {TX : TextRuntime} {SA : ScoreArith} {TR : TimeRuntime}
    (log_data : list record) (stdout : list string)
    (a : SmartAnalyzer.analysis) :
  SmartAnalyzer.analyse log_data = (stdout, inr a) ->
  stdout = []
  /\ SmartAnalyzer.total_words_read a
     = Py.sum (map (fun r => non_duplicate_count (rec r)) (session log_data))
  /\ SmartAnalyzer.word_counts a
     = Py.Counter (flat_map (fun r => detected_words_list (rec r))
                            (session log_data))
  /\ SmartAnalyzer.top_content_words a
     = map fst (Py.most_common 10 (SmartAnalyzer.word_counts a))
  /\ SmartAnalyzer.important_events a
     = Analyzer.important_events_of (session log_data).
Proof.
  unfold SmartAnalyzer.analyse.
  destruct log_data as [|r log_data]; [discriminate|].
  rewrite AnalysisFacts.smart_analyzer_parse_loop. cbn [app].
  unfold session, sortByTime.
  destruct (timedEvents (r :: log_data)) as [|r0 rs]; [discriminate|].
  intros [= <- <-]. cbn. repeat split; reflexivity.
Qed.

(** The first analyzer prints one warning for each record it drops, the
    second prints nothing, whatever the log. *)
Lemma analyzer_warns_on_dropped {TR : TimeRuntime} (log_data : list record) :
  fst (Analyzer.generate_narrative_summary log_data)
  = map (fun r => ("[WARNING] Skipping record due to bad timestamp: "
                     ++ timestamp r)%string)
        (droppedEvents log_data).
Proof.
  unfold Analyzer.generate_narrative_summary, Analyzer.analyse.
  destruct log_data as [|r log_data]; [reflexivity|].
  rewrite AnalysisFacts.analyzer_parse_loop. cbn [app].
  destruct (timedEvents (r :: log_data)); reflexivity.
Qed.

Lemma smart_analyzer_prints_nothing
    {TX : TextRuntime} {SA : ScoreArith} {TR : TimeRuntime}
    (log_data : list record) :
  fst (SmartAnalyzer.generate_narrative_summary log_data) = [].
Proof.
  unfold SmartAnalyzer.generate_narrative_summary, SmartAnalyzer.analyse.
  destruct log_data as [|r log_data]; [reflexivity|].
  destruct (fold_left SmartAnalyzer.parse_record (r :: log_data) []);
    reflexivity.
Qed.

(** In both analyzers a record with a bad timestamp is passed over and the
    records around it are processed as without it. *)
Lemma bad_timestamp_is_passed_over
    {TX : TextRuntime} {SA : ScoreArith} {TR : TimeRuntime}
    (before after : list record) (r : record) :
  parsedTime r = None ->
  before ++ after <> [] ->
  snd (Analyzer.generate_narrative_summary (before ++ r :: after))
  = snd (Analyzer.generate_narrative_summary (before ++ after))
  /\ snd (SmartAnalyzer.generate_narrative_summary (before ++ r :: after))
     = snd (SmartAnalyzer.generate_narrative_summary (before ++ after)).
Proof.
  intros Hbad Hne.
  pose proof (AnalysisFacts.timedEvents_skips before after r Hbad) as E.
  unfold Analyzer.generate_narrative_summary, Analyzer.analyse,
    SmartAnalyzer.generate_narrative_summary, SmartAnalyzer.analyse.
  destruct (before ++ r :: after) as [|x xs] eqn:E1;
    [now destruct before|].
  destruct (before ++ after) as [|y ys] eqn:E2; [contradiction|].
  rewrite !AnalysisFacts.analyzer_parse_loop,
    !AnalysisFacts.smart_analyzer_parse_loop.
  cbn [app]. rewrite E.
  destruct (timedEvents (y :: ys)); split; reflexivity.
Qed.

(** C2, on a log whose second record has a timestamp in neither format.
    The first analyzer prints the warning for it; the second analyzer
    prints nothing at all.  Both go on: the report is the one of the log
    without that record. *)
Theorem C2_bad_timestamp_warning_in_first_analyzer_only :
  parsedTime (TR := Rules.time) Samples.bad_event = None
  /\ fst (Analyzer.generate_narrative_summary (TR := Rules.time)
            Samples.log_with_bad_timestamp)
     = ["[WARNING] Skipping record due to bad timestamp: nine o'clock"%string]
  /\ fst (SmartAnalyzer.generate_narrative_summary
            (TX := Rules.text) (SA := Rules.scores) (TR := Rules.time)
            Samples.log_with_bad_timestamp)
     = []
  /\ snd (Analyzer.generate_narrative_summary (TR := Rules.time)
            Samples.log_with_bad_timestamp)
     = snd (Analyzer.generate_narrative_summary (TR := Rules.time)
              Samples.good_log)
  /\ snd (SmartAnalyzer.generate_narrative_summary
            (TX := Rules.text) (SA := Rules.scores) (TR := Rules.time)
            Samples.log_with_bad_timestamp)
     = snd (SmartAnalyzer.generate_narrative_summary
              (TX := Rules.text) (SA := Rules.scores) (TR := Rules.time)
              Samples.good_log).
Proof.
  split; [reflexivity|].
  split; [now rewrite analyzer_warns_on_dropped|].
  split; [apply smart_analyzer_prints_nothing|].
  apply (bad_timestamp_is_passed_over [Samples.event3]
           [Samples.event1; Samples.event2] Samples.bad_event).
  - reflexivity.
  - discriminate.
Qed.

Lemma totalWordsRead_sum (events : list timed_record) :
  Py.sum (map (fun r => non_duplicate_count (rec r)) events)
  = totalWordsRead (map rec events).
Proof.
  induction events as [|r events IH]; [reflexivity|].
  cbn [map]. rewrite PyFacts.sum_cons, IH. reflexivity.
Qed.

Lemma session_total {TR : TimeRuntime} (log_data : list record) :
  Py.sum (map (fun r => non_duplicate_count (rec r)) (session log_data))
  = totalWordsRead (validEvents log_data).
Proof.
  rewrite <- AnalysisFacts.timedEvents_rec, <- totalWordsRead_sum.
  apply PyFacts.sum_permutation, Permutation_map, Permutation_sym.
  apply AnalysisFacts.sortByTime_permutation.
Qed.

(** The total depends on the timestamps and counts of the log only. *)
Lemma totalWordsRead_stamp_and_count {TR : TimeRuntime}
    (log1 log2 : list record) :
  map stamp_and_count log1 = map stamp_and_count log2 ->
  totalWordsRead (validEvents log1) = totalWordsRead (validEvents log2).
Proof.
  revert log2; induction log1 as [|r1 log1 IH]; intros [|r2 log2] H;
    try discriminate; [reflexivity|].
  cbn [map] in H. unfold stamp_and_count at 1 3 in H.
  injection H as Hstamp Hcount Ht.
  specialize (IH log2 Ht).
  assert (P : parses r1 = parses r2).
  { unfold parses, parsedTime. now rewrite Hstamp. }
  unfold validEvents in *. cbn [filter]. rewrite P.
  destruct (parses r2); [|exact IH].
  unfold totalWordsRead in *. cbn [fold_right]. now rewrite IH, Hcount.
Qed.

(** C7.  When the analyzers report, the total of words read is the sum of
    [non_duplicate_count] over the valid events of the log, in either
    analyzer; the sum is taken in the order of the log, whatever the order
    after sorting, and two logs with the same timestamps and counts have the
    same total, whatever their word lists. *)
Theorem C7_total_words_read_sums_valid_counts
    {TX : TextRuntime} {SA : ScoreArith} {TR : TimeRuntime}
    (log_data : list record)
    (stdout1 stdout2 : list string)
    (a1 : Analyzer.analysis) (a2 : SmartAnalyzer.analysis) :
  Analyzer.analyse log_data = (stdout1, inr a1) ->
  SmartAnalyzer.analyse log_data = (stdout2, inr a2) ->
  Analyzer.total_words_read a1 = totalWordsRead (validEvents log_data)
  /\ SmartAnalyzer.total_words_read a2 = totalWordsRead (validEvents log_data)
  /\ forall other_log : list record,
       map stamp_and_count other_log = map stamp_and_count log_data ->
       totalWordsRead (validEvents other_log)
       = totalWordsRead (validEvents log_data).
Proof.
  intros H1 H2.
  apply analyzer_report in H1. destruct H1 as (_ & T1 & _).
  apply smart_analyzer_report in H2. destruct H2 as (_ & T2 & _).
  rewrite T1, T2, session_total.
  repeat split. intros other_log. apply totalWordsRead_stamp_and_count.
Qed.

(** C7, a run: 55 + 10 + 5 words, the record with the bad timestamp not
    counted. *)
Lemma C7_total_words_read_sums_valid_counts_witness :
  exists (a1 : Analyzer.analysis) (a2 : SmartAnalyzer.analysis),
    snd (Analyzer.analyse (TR := Rules.time) Samples.log_with_bad_timestamp)
    = inr a1
    /\ snd (SmartAnalyzer.analyse (TX := Rules.text) (SA := Rules.scores)
              (TR := Rules.time) Samples.log_with_bad_timestamp)
       = inr a2
    /\ Analyzer.total_words_read a1 = 70%Z
    /\ SmartAnalyzer.total_words_read a2 = 70%Z.
Proof.
  eexists. eexists.
  split; [reflexivity|]. split; [reflexivity|].
  destruct (@C7_total_words_read_sums_valid_counts
              Rules.text Rules.scores Rules.time
              Samples.log_with_bad_timestamp _ _ _ _ eq_refl eq_refl)
    as (T1 & T2 & _).
  split; [exact T1 | exact T2].
Defined.

(** C5.  When the analyzers report, the pauses among the key events are,
    for the adjacent pairs of the session (the valid events sorted by time)
    taken in order, one descriptor for each pair whose difference in seconds
    is at least the threshold 5, and none for the others, in either
    analyzer.  For three events at [t], [t + 2s] and [t + 8s] that is one
    pause, from the second to the third, of 6 seconds. *)
Theorem C5_pauses_are_the_gaps_of_adjacent_events
    {TX : TextRuntime} {SA : ScoreArith} {TR : TimeRuntime}
    (log_data : list record)
    (stdout1 stdout2 : list string)
    (a1 : Analyzer.analysis) (a2 : SmartAnalyzer.analysis) :
  Analyzer.analyse log_data = (stdout1, inr a1) ->
  SmartAnalyzer.analyse log_data = (stdout2, inr a2) ->
  filter is_pause (Analyzer.important_events a1)
  = detectGaps (session log_data) (5 # 1)
  /\ filter is_pause (SmartAnalyzer.important_events a2)
     = detectGaps (session log_data) (5 # 1)
  /\ forall (t : datetime) (e1 e2 e3 : record),
       filter is_pause
         (Analyzer.important_events_of (Samples.at_offsets t e1 e2 e3))
       = [PauseBreak (timestamp e2) (timestamp e3) (6000000 # 1000000)]
       /\ filter is_pause
            (SmartAnalyzer.important_events_of (Samples.at_offsets t e1 e2 e3))
          = [PauseBreak (timestamp e2) (timestamp e3) (6000000 # 1000000)]
       /\ Qeq (6000000 # 1000000) (6 # 1).
Proof.
  intros H1 H2.
  apply analyzer_report in H1. destruct H1 as (_ & _ & _ & _ & E1).
  apply smart_analyzer_report in H2. destruct H2 as (_ & _ & _ & _ & E2).
  rewrite E1, E2.
  rewrite AnalysisFacts.important_events_filter by reflexivity.
  rewrite AnalysisFacts.scan_pauses.
  split; [reflexivity|]. split; [reflexivity|].
  intros t e1 e2 e3.
  assert (G : filter is_pause
                (Analyzer.important_events_of (Samples.at_offsets t e1 e2 e3))
              = [PauseBreak (timestamp e2) (timestamp e3)
                            (6000000 # 1000000)]).
  { rewrite AnalysisFacts.important_events_filter by reflexivity.
    rewrite AnalysisFacts.scan_pauses.
    unfold detectGaps, adjacent_pairs, Samples.at_offsets, total_seconds.
    cbn [tl combine flat_map fst snd dt_time rec app].
    replace (t + 2000000 - t)%Z with 2000000%Z by lia.
    replace (t + 8000000 - (t + 2000000))%Z with 6000000%Z by lia.
    reflexivity. }
  split; [exact G|]. split; [exact G | reflexivity].
Qed.

(** C5, a run: the sample log has one pause, of nine seconds. *)
Lemma C5_pauses_are_the_gaps_of_adjacent_events_witness :
  exists (a1 : Analyzer.analysis) (a2 : SmartAnalyzer.analysis),
    snd (Analyzer.analyse (TR := Rules.time) Samples.good_log) = inr a1
    /\ snd (SmartAnalyzer.analyse (TX := Rules.text) (SA := Rules.scores)
              (TR := Rules.time) Samples.good_log)
       = inr a2
    /\ filter is_pause (Analyzer.important_events a1)
       = [PauseBreak "09:00:03.000" "09:00:12.000" (9000000 # 1000000)]
    /\ filter is_pause (SmartAnalyzer.important_events a2)
       = [PauseBreak "09:00:03.000" "09:00:12.000" (9000000 # 1000000)].
Proof.
  eexists. eexists.
  split; [reflexivity|]. split; [reflexivity|].
  destruct (@C5_pauses_are_the_gaps_of_adjacent_events
              Rules.text Rules.scores Rules.time
              Samples.good_log _ _ _ _ eq_refl eq_refl)
    as (P1 & P2 & _).
  split; [exact P1 | exact P2].
Defined.

(** C6.  When the analyzers report, the high-activity findings among the
    key events are those of the events of the session whose
    [non_duplicate_count] is at least the threshold 50, in session order,
    each with its timestamp and count, in either analyzer; an event of the
    session is flagged if and only if its count is at least 50.  An event
    with count 49 is not flagged, one with count 50 is. *)
Theorem C6_high_activity_at_fifty_or_more
    {TX : TextRuntime} {SA : ScoreArith} {TR : TimeRuntime}
    (log_data : list record)
    (stdout1 stdout2 : list string)
    (a1 : Analyzer.analysis) (a2 : SmartAnalyzer.analysis) :
  Analyzer.analyse log_data = (stdout1, inr a1) ->
  SmartAnalyzer.analyse log_data = (stdout2, inr a2) ->
  filter is_activity (Analyzer.important_events a1)
  = detectHighActivity (session log_data) 50
  /\ filter is_activity (SmartAnalyzer.important_events a2)
     = detectHighActivity (session log_data) 50
  /\ (forall r : timed_record,
        In r (session log_data) ->
        (In (HighActivity (timestamp (rec r)) (non_duplicate_count (rec r)))
            (Analyzer.important_events a1)
         <-> (50 <= non_duplicate_count (rec r))%Z)
        /\ (In (HighActivity (timestamp (rec r)) (non_duplicate_count (rec r)))
               (SmartAnalyzer.important_events a2)
            <-> (50 <= non_duplicate_count (rec r))%Z))
  /\ Analyzer.important_events_of [Samples.counting 49] = [NoSignificantEvents]
  /\ Analyzer.important_events_of [Samples.counting 50]
     = [HighActivity "10:00:00.000" 50]
  /\ SmartAnalyzer.important_events_of [Samples.counting 49]
     = [NoSignificantEvents]
  /\ SmartAnalyzer.important_events_of [Samples.counting 50]
     = [HighActivity "10:00:00.000" 50].
Proof.
  intros H1 H2.
  apply analyzer_report in H1. destruct H1 as (_ & _ & _ & _ & E1).
  apply smart_analyzer_report in H2. destruct H2 as (_ & _ & _ & _ & E2).
  rewrite E1, E2.
  assert (F : filter is_activity
                (Analyzer.important_events_of (session log_data))
              = detectHighActivity (session log_data) 50).
  { rewrite AnalysisFacts.important_events_filter by reflexivity.
    apply AnalysisFacts.scan_activities. }
  assert (I : forall r : timed_record,
             In r (session log_data) ->
             In (HighActivity (timestamp (rec r)) (non_duplicate_count (rec r)))
                (Analyzer.important_events_of (session log_data))
             <-> (50 <= non_duplicate_count (rec r))%Z).
  { intros r Hr. split.
    - intros Hin.
      assert (Hf : In (HighActivity (timestamp (rec r))
                         (non_duplicate_count (rec r)))
                      (filter is_activity
                         (Analyzer.important_events_of (session log_data)))).
      { apply filter_In. split; [assumption | reflexivity]. }
      rewrite F in Hf. unfold detectHighActivity in Hf.
      apply in_map_iff in Hf. destruct Hf as (r' & E & Hr').
      apply filter_In in Hr'. destruct Hr' as [_ Hc].
      apply Z.leb_le in Hc. injection E as _ Ec. lia.
    - intros Hc.
      assert (Hf : In (HighActivity (timestamp (rec r))
                         (non_duplicate_count (rec r)))
                      (filter is_activity
                         (Analyzer.important_events_of (session log_data)))).
      { rewrite F. unfold detectHighActivity.
        apply in_map_iff. exists r. split; [reflexivity|].
        apply filter_In. split; [assumption | now apply Z.leb_le]. }
      now apply filter_In in Hf. }
  split; [exact F|]. split; [exact F|].
  split; [intros r Hr; split; now apply I|].
  repeat split; reflexivity.
Qed.

(** C6, a run: of the sample log only the event of 55 words is flagged. *)
Lemma C6_high_activity_at_fifty_or_more_witness :
  exists (a1 : Analyzer.analysis) (a2 : SmartAnalyzer.analysis),
    snd (Analyzer.analyse (TR := Rules.time) Samples.good_log) = inr a1
    /\ snd (SmartAnalyzer.analyse (TX := Rules.text) (SA := Rules.scores)
              (TR := Rules.time) Samples.good_log)
       = inr a2
    /\ filter is_activity (Analyzer.important_events a1)
       = [HighActivity "09:00:12.000" 55]
    /\ filter is_activity (SmartAnalyzer.important_events a2)
       = [HighActivity "09:00:12.000" 55].
Proof.
  eexists. eexists.
  split; [reflexivity|]. split; [reflexivity|].
  destruct (@C6_high_activity_at_fifty_or_more
              Rules.text Rules.scores Rules.time
              Samples.good_log _ _ _ _ eq_refl eq_refl)
    as (P1 & P2 & _).
  split; [exact P1 | exact P2].
Defined.

(** C9.  On every log the two analyzers end alike: with the same message
    when they return early, and otherwise with the same start time, end
    time, duration, total of words read, top ten words and key events. *)
Theorem C9_analyzers_agree_outside_the_summary
    {TX : TextRuntime} {SA : ScoreArith} {TR : TimeRuntime}
    (log_data : list record) :
  match snd (Analyzer.analyse log_data),
        snd (SmartAnalyzer.analyse log_data) with
  | inl message1, inl message2 => message1 = message2
  | inr a1, inr a2 =>
      Analyzer.start_time a1 = SmartAnalyzer.start_time a2
      /\ Analyzer.end_time a1 = SmartAnalyzer.end_time a2
      /\ Analyzer.total_duration a1 = SmartAnalyzer.total_duration a2
      /\ Analyzer.total_words_read a1 = SmartAnalyzer.total_words_read a2
      /\ Analyzer.top_content_words a1 = SmartAnalyzer.top_content_words a2
      /\ Analyzer.important_events a1 = SmartAnalyzer.important_events a2
  | _, _ => False
  end.
Proof.
  unfold Analyzer.analyse, SmartAnalyzer.analyse.
  destruct log_data as [|r log_data]; [reflexivity|].
  rewrite AnalysisFacts.analyzer_parse_loop,
    AnalysisFacts.smart_analyzer_parse_loop.
  cbn [app].
  destruct (timedEvents (r :: log_data)) as [|r0 rs]; [reflexivity|].
  cbn [snd]. repeat split; reflexivity.
Qed.

(* ------------------------------------------------------------------ *)
(** * The word-frequency table and its top words *)
(* ------------------------------------------------------------------ *)

Module CounterFacts.
Import DictFacts.

Lemma first_index_lt (w : string) (l : list string) :
  In w l -> first_index w l < length l.
Proof.
  induction l as [|x l IH]; simpl; [intros []|].
  destruct (String.eqb_spec x w) as [->|N]; [lia|].
  intros [E|H]; [contradiction|]. specialize (IH H). lia.
Qed.

Lemma first_index_app_in (w : string) (l l' : list string) :
  In w l -> first_index w (l ++ l') = first_index w l.
Proof.
  induction l as [|x l IH]; simpl; [intros []|].
  destruct (String.eqb_spec x w) as [->|N]; [reflexivity|].
  intros [E|H]; [contradiction|]. now rewrite IH.
Qed.

Lemma first_index_app_new (w : string) (l : list string) :
  ~ In w l -> first_index w (l ++ [w]) = length l.
Proof.
  induction l as [|x l IH]; simpl; intros H.
  - now rewrite String.eqb_refl.
  - destruct (String.eqb_spec x w) as [->|N].
    + exfalso; apply H; now left.
    + rewrite IH; [reflexivity|]. intros I; apply H; now right.
Qed.

Lemma occurrences_app (w : string) (l l' : list string) :
  occurrences w (l ++ l') = (occurrences w l + occurrences w l')%Z.
Proof.
  induction l as [|x l IH]; cbn [app occurrences]; [reflexivity|].
  destruct (String.eqb x w); rewrite IH; lia.
Qed.

Lemma occurrences_absent (w : string) (l : list string) :
  ~ In w l -> occurrences w l = 0%Z.
Proof.
  induction l as [|x l IH]; simpl; intros H; [reflexivity|].
  destruct (String.eqb_spec x w) as [->|N].
  - exfalso; apply H; now left.
  - apply IH. intros I; apply H; now right.
Qed.

Lemma occurrences_other (w x : string) : x <> w -> occurrences w [x] = 0%Z.
Proof.
  intros N. simpl. destruct (String.eqb_spec x w); [contradiction|reflexivity].
Qed.

Lemma occurrences_self (w : string) : occurrences w [w] = 1%Z.
Proof. simpl. now rewrite String.eqb_refl. Qed.

(** ** Sorted lists *)

Lemma StronglySorted_among {A : Type} (R R' : A -> A -> Prop) (l : list A) :
  (forall a b, In a l -> In b l -> R a b -> R' a b) ->
  StronglySorted R l -> StronglySorted R' l.
Proof.
  induction l as [|x l IH]; intros HR H; [constructor|].
  inversion H as [|? ? Hl Hx]; subst. constructor.
  - apply IH; [|assumption]. intros a b Ha Hb. apply HR; now right.
  - rewrite Forall_forall in *. intros y Hy.
    apply HR; [now left | now right | now apply Hx].
Qed.

Lemma StronglySorted_snoc {A : Type} (R : A -> A -> Prop) (l : list A) (y : A) :
  StronglySorted R l -> Forall (fun x => R x y) l ->
  StronglySorted R (l ++ [y]).
Proof.
  induction l as [|x l IH]; intros H Hy; simpl.
  - constructor; constructor.
  - inversion H as [|? ? Hl Hx]; subst.
    inversion Hy as [|? ? Hxy Hy']; subst.
    constructor; [now apply IH|].
    apply Forall_app. split; [assumption|]. now constructor.
Qed.

Lemma StronglySorted_map {A B : Type} (R : B -> B -> Prop) (f : A -> B)
    (l : list A) :
  StronglySorted (fun a b => R (f a) (f b)) l <-> StronglySorted R (map f l).
Proof.
  induction l as [|x l IH]; simpl.
  - split; constructor.
  - split; intros H; inversion H as [|? ? Hl Hx]; subst; constructor.
    + now apply IH.
    + rewrite Forall_forall in *. intros y Hy.
      apply in_map_iff in Hy. destruct Hy as (a & <- & Ha). now apply Hx.
    + now apply IH.
    + rewrite Forall_forall in *. intros a Ha. apply Hx. now apply in_map.
Qed.

Lemma StronglySorted_lt_NoDup {A : Type} (pos : A -> nat) (l : list A) :
  StronglySorted (fun a b => pos a < pos b) l -> NoDup l.
Proof.
  induction 1 as [|x l Hl IH Hx]; constructor; [|assumption].
  rewrite Forall_forall in Hx. intros I. specialize (Hx x I). lia.
Qed.

(** ** The counter *)

Lemma Counter_snoc (p : list string) (w : string) :
  Py.Counter (p ++ [w]) = Py.count_one (Py.Counter p) w.
Proof. unfold Py.Counter. now rewrite fold_left_app. Qed.

Lemma counted_step (p : list string) (d : Py.dict Z) (w : string) :
  counted p d -> counted (p ++ [w]) (Py.count_one d w).
Proof.
  intros (Items & Order & All). unfold Py.count_one.
  assert (InP : forall k, In k (Py.keys d) -> In k p).
  { intros k Hk. unfold Py.keys in Hk. apply in_map_iff in Hk.
    destruct Hk as (kv & <- & Hkv). now apply Items. }
  assert (Order' : StronglySorted
                     (fun a b => first_index a (p ++ [w])
                                 < first_index b (p ++ [w]))
                     (Py.keys d)).
  { refine (StronglySorted_among _ _ _ _ Order).
    intros a b Ha Hb Hab.
    now rewrite !first_index_app_in by now apply InP. }
  destruct (Py.dict_get d w) as [c|] eqn:G.
  - (* [w] has been seen *)
    pose proof (dict_get_in _ _ _ G) as Hwc.
    assert (Hw : In w (Py.keys d)).
    { unfold Py.keys. apply in_map_iff. now exists (w, c). }
    split; [|split].
    + intros kv Hkv.
      apply dict_set_items in Hkv;
        [|now apply (StronglySorted_lt_NoDup (fun a => first_index a p))].
      destruct Hkv as [->|[Hkv N]]; simpl.
      * split; [apply in_or_app; right; now left|].
        rewrite occurrences_app, occurrences_self.
        destruct (Items _ Hwc) as [_ E]. simpl in E. lia.
      * destruct (Items _ Hkv) as [I E].
        split; [apply in_or_app; now left|].
        rewrite occurrences_app, occurrences_other by (intros X; now apply N).
        lia.
    + now rewrite dict_set_present.
    + intros w' Hw'. rewrite dict_set_present by assumption.
      apply in_app_or in Hw'. destruct Hw' as [I|[<-|[]]];
        [now apply All | assumption].
  - (* [w] is new *)
    assert (Hw : ~ In w (Py.keys d)) by now apply dict_get_none_iff.
    assert (Hp : ~ In w p) by (intros I; now apply Hw, All).
    rewrite dict_set_absent by assumption.
    split; [|split].
    + intros kv Hkv. apply in_app_or in Hkv.
      destruct Hkv as [Hkv|[<-|[]]]; simpl.
      * destruct (Items _ Hkv) as [I E].
        split; [apply in_or_app; now left|].
        rewrite occurrences_app, occurrences_other; [lia|].
        intros ->. now apply Hp.
      * split; [apply in_or_app; right; now left|].
        rewrite occurrences_app, occurrences_self, occurrences_absent
          by assumption.
        reflexivity.
    + unfold Py.keys. rewrite map_app. simpl.
      apply StronglySorted_snoc; [exact Order'|].
      rewrite Forall_forall. intros k Hk.
      rewrite first_index_app_in by now apply InP.
      rewrite first_index_app_new by assumption.
      apply first_index_lt. now apply InP.
    + intros w' Hw'. unfold Py.keys. rewrite map_app.
      apply in_app_or in Hw'. apply in_or_app.
      destruct Hw' as [I|[<-|[]]]; [left; now apply All | right; now left].
Qed.

Lemma Counter_counted (l : list string) : counted l (Py.Counter l).
Proof.
  induction l as [|w l IH] using rev_ind.
  - split; [intros kv [] | split; [constructor | intros w []]].
  - rewrite Counter_snoc. now apply counted_step.
Qed.

End CounterFacts.

(** The whole table in the order of [most_common]: by descending count,
    and for equal counts by first occurrence. *)
Lemma ranked_table (flatWordSequence : list string) :
  StronglySorted (ranks_before flatWordSequence)
    (map fst (Py.sorted_reverse Z.leb snd (Py.Counter flatWordSequence))).
Proof.
  destruct (CounterFacts.Counter_counted flatWordSequence)
    as (Items & Order & _).
  apply (proj1 (CounterFacts.StronglySorted_map
                  (ranks_before flatWordSequence) fst _)).
  pose (pos := fun kv : string * Z => first_index (fst kv) flatWordSequence).
  assert (S : StronglySorted (Py.outranks snd pos)
                (Py.sorted_reverse Z.leb snd (Py.Counter flatWordSequence))).
  { apply PyFacts.sorted_reverse_ranked.
    apply (proj2 (CounterFacts.StronglySorted_map
                    (fun a b => first_index a flatWordSequence
                                < first_index b flatWordSequence) fst _)).
    exact Order. }
  refine (CounterFacts.StronglySorted_among _ _ _ _ S).
  intros a b Ha Hb Hab.
  assert (Occ : forall kv,
             In kv (Py.sorted_reverse Z.leb snd (Py.Counter flatWordSequence)) ->
             snd kv = occurrences (fst kv) flatWordSequence).
  { intros kv Hkv. apply Items.
    apply (Permutation_in kv
             (Permutation_sym
                (PyFacts.sorted_reverse_permutation Z.leb snd _)) Hkv). }
  unfold ranks_before. rewrite <- !Occ by assumption. exact Hab.
Qed.

(* ------------------------------------------------------------------ *)
(** * More facts: top words, sorting, counters *)
(* ------------------------------------------------------------------ *)

Module TopFacts.

Lemma ranks_before_irreflexive (l : list string) (w : string) :
  ~ ranks_before l w w.
Proof. unfold ranks_before. lia. Qed.

Lemma StronglySorted_irreflexive_NoDup {A : Type} (R : A -> A -> Prop)
    (l : list A) :
  (forall x, ~ R x x) -> StronglySorted R l -> NoDup l.
Proof.
  intros Irr. induction 1 as [|x l Hl IH Hx]; constructor; [|assumption].
  rewrite Forall_forall in Hx. intros I. exact (Irr x (Hx x I)).
Qed.

(** The words [most_common] returns, whatever the list counted. *)
Lemma top_words_facts (k : nat) (l : list string) :
  let top := map fst (Py.most_common k (Py.Counter l)) in
  length top <= k
  /\ NoDup top
  /\ (forall w, In w top -> In w l)
  /\ StronglySorted (ranks_before l) top
  /\ (forall w w', In w top -> In w' l -> ~ In w' top -> ranks_before l w w').
Proof.
  intros top.
  pose (L := Py.sorted_reverse Z.leb snd (Py.Counter l)).
  assert (Etop : top = firstn k (map fst L)).
  { unfold top, Py.most_common, Py.nlargest. now rewrite firstn_map. }
  pose proof (ranked_table l) as R. fold L in R.
  rewrite <- (firstn_skipn k (map fst L)) in R.
  apply PyFacts.StronglySorted_app_cross in R. destruct R as [Rtop Rcross].
  destruct (CounterFacts.Counter_counted l) as (Items & _ & All).
  assert (Keys : forall w, In w (map fst L) <-> In w l).
  { intros w. split.
    - intros Hw. apply in_map_iff in Hw. destruct Hw as (kv & <- & Hkv).
      apply Items.
      apply (Permutation_in kv
               (Permutation_sym
                  (PyFacts.sorted_reverse_permutation Z.leb snd _)) Hkv).
    - intros Hw. apply All in Hw. unfold Py.keys in Hw.
      apply (Permutation_in w
               (Permutation_map fst
                  (PyFacts.sorted_reverse_permutation Z.leb snd _)) Hw). }
  rewrite Etop. split; [|split; [|split; [|split]]].
  - apply firstn_le_length.
  - apply (StronglySorted_irreflexive_NoDup (ranks_before l));
      [apply ranks_before_irreflexive | exact Rtop].
  - intros w Hw. apply Keys.
    rewrite <- (firstn_skipn k (map fst L)). apply in_or_app. now left.
  - exact Rtop.
  - intros w w' Hw Hw' Hnot. apply Rcross; [assumption|].
    apply Keys in Hw'. rewrite <- (firstn_skipn k (map fst L)) in Hw'.
    apply in_app_or in Hw'. destruct Hw' as [H|H]; [contradiction|exact H].
Qed.

(** The first [j] of the [k] most common are the [j] most common. *)
Lemma most_common_prefix (j k : nat) (c : Py.dict Z) :
  j <= k ->
  firstn j (map fst (Py.most_common k c)) = map fst (Py.most_common j c).
Proof.
  intros H. unfold Py.most_common, Py.nlargest.
  rewrite <- !firstn_map, firstn_firstn. now rewrite Nat.min_l.
Qed.

End TopFacts.

(* ------------------------------------------------------------------ *)
(** * The capture scripts *)
(* ------------------------------------------------------------------ *)

Module CaptureFacts.
Import Vocabulary.

Local Open Scope list_scope.

(** From index [length pre + 1] on, the loop appends the words that differ
    from the word before them. *)
Lemma keep_if_changed_from (pre : list string) (p : string)
    (suf acc : list string) :
  fold_left (OcrSave.keep_if_changed (pre ++ p :: suf))
            (seq (S (length pre)) (length suf)) acc
  = acc ++ changes p suf.
Proof.
  revert pre p acc; induction suf as [|x suf IH]; intros pre p acc.
  - simpl. now rewrite app_nil_r.
  - cbn [length seq fold_left].
    replace (pre ++ p :: x :: suf) with ((pre ++ [p]) ++ x :: suf)
      by (now rewrite <- app_assoc).
    replace (S (S (length pre))) with (S (length (pre ++ [p])))
      by (rewrite length_app; simpl; lia).
    rewrite IH.
    unfold OcrSave.keep_if_changed.
    replace (nth (S (length pre)) ((pre ++ [p]) ++ x :: suf) EmptyString)
      with x.
    2:{ replace (S (length pre)) with (length (pre ++ [p]))
          by (rewrite length_app; simpl; lia).
        now rewrite nth_middle. }
    replace (nth (S (length pre) - 1) ((pre ++ [p]) ++ x :: suf) EmptyString)
      with p.
    2:{ replace (S (length pre) - 1) with (length pre) by lia.
        rewrite <- app_assoc. cbn [app]. now rewrite nth_middle. }
    cbn [changes]. destruct (String.eqb x p).
    + reflexivity.
    + now rewrite <- app_assoc.
Qed.

Lemma delete_consecutive_duplicates_collapse (l : list string) :
  OcrSave.delete_consecutive_duplicates l = collapse l.
Proof.
  destruct l as [|first rest]; [reflexivity|].
  unfold OcrSave.delete_consecutive_duplicates, collapse.
  replace (length (first :: rest) - 1) with (length rest)
    by (cbn [length]; lia).
  apply (keep_if_changed_from [] first rest [first]).
Qed.

Lemma no_repeat_changes (x : string) (l : list string) :
  no_repeat (x :: changes x l).
Proof.
  revert x; induction l as [|y l IH]; intros x; [exact I|].
  cbn [changes]. destruct (String.eqb_spec y x) as [->|N].
  - apply IH.
  - cbn [no_repeat]. split; [intros E; now apply N | apply IH].
Qed.

Lemma no_repeat_collapse (l : list string) : no_repeat (collapse l).
Proof. destruct l; [exact I | apply no_repeat_changes]. Qed.

Lemma changes_fixed (x : string) (l : list string) :
  no_repeat (x :: l) -> changes x l = l.
Proof.
  revert x; induction l as [|y l IH]; intros x H; [reflexivity|].
  cbn [no_repeat] in H. destruct H as [N H]. cbn [changes].
  destruct (String.eqb_spec y x) as [E|_]; [now elim N|].
  now rewrite IH.
Qed.

Lemma collapse_fixed (l : list string) : no_repeat l -> collapse l = l.
Proof.
  destruct l as [|x l]; [reflexivity|]. intros H. unfold collapse.
  now rewrite changes_fixed.
Qed.

Lemma changes_In (x : string) (l : list string) (w : string) :
  In w (x :: changes x l) <-> In w (x :: l).
Proof.
  revert x; induction l as [|y l IH]; intros x; [reflexivity|].
  cbn [changes]. destruct (String.eqb_spec y x) as [->|N].
  - rewrite IH. simpl. tauto.
  - specialize (IH y). simpl in *. tauto.
Qed.

Lemma changes_length (x : string) (l : list string) :
  length (changes x l) <= length l.
Proof.
  revert x; induction l as [|y l IH]; intros x; [reflexivity|].
  cbn [changes]. destruct (String.eqb y x); simpl; specialize (IH y); lia.
Qed.

Lemma collapse_length (l : list string) :
  length (collapse l) <= length l
  /\ (length (collapse l) = 0 <-> length l = 0).
Proof.
  destruct l as [|x l]; simpl.
  - split; [lia | tauto].
  - pose proof (changes_length x l). split; [lia|]. split; discriminate.
Qed.

Lemma collapse_In (l : list string) (w : string) :
  In w (collapse l) <-> In w l.
Proof. destruct l as [|x l]; [reflexivity | apply changes_In]. Qed.

Lemma not_in_spec (stop_words : list string) (word : string) :
  not_in stop_words word = true <-> ~ In word stop_words.
Proof.
  unfold not_in. rewrite negb_true_iff. split.
  - intros H I. assert (E : existsb (String.eqb word) stop_words = true).
    { apply existsb_exists. exists word. split; [assumption|].
      apply String.eqb_refl. }
    congruence.
  - intros H. destruct (existsb (String.eqb word) stop_words) eqn:E;
      [|reflexivity].
    apply existsb_exists in E. destruct E as (x & Hx & Ex).
    apply String.eqb_eq in Ex. subst x. contradiction.
Qed.

End CaptureFacts.

Import Vocabulary.

(** X1.  The index loop of [ocr_save.py] that deletes consecutive
    duplicates collapses each run of equal words to one word: its result is
    the collapse of its input, no word in it equals the word after it, and
    it has exactly the words of the input. *)
Theorem X1_consecutive_duplicates_collapse_runs (l : list string) :
  OcrSave.delete_consecutive_duplicates l = collapse l
  /\ no_repeat (OcrSave.delete_consecutive_duplicates l)
  /\ forall w, In w (OcrSave.delete_consecutive_duplicates l) <-> In w l.
Proof.
  rewrite CaptureFacts.delete_consecutive_duplicates_collapse.
  split; [reflexivity|]. split; [apply CaptureFacts.no_repeat_collapse|].
  intros w. apply CaptureFacts.collapse_In.
Qed.

(** X2.  Deleting consecutive duplicates never lengthens the list, leaves a
    list without consecutive duplicates as it is, and so changes nothing
    when applied a second time. *)
Theorem X2_consecutive_duplicates_idempotent (l : list string) :
  length (OcrSave.delete_consecutive_duplicates l) <= length l
  /\ (no_repeat l -> OcrSave.delete_consecutive_duplicates l = l)
  /\ OcrSave.delete_consecutive_duplicates
       (OcrSave.delete_consecutive_duplicates l)
     = OcrSave.delete_consecutive_duplicates l.
Proof.
  rewrite !CaptureFacts.delete_consecutive_duplicates_collapse.
  split; [apply CaptureFacts.collapse_length|].
  split; [apply CaptureFacts.collapse_fixed|].
  apply CaptureFacts.collapse_fixed, CaptureFacts.no_repeat_collapse.
Qed.

(** X2, a run: a list with no consecutive duplicates is returned as it is. *)
Lemma X2_consecutive_duplicates_idempotent_witness :
  OcrSave.delete_consecutive_duplicates ["the"; "cat"; "the"; "mat"]
  = ["the"; "cat"; "the"; "mat"].
Proof.
  apply (proj1 (proj2 (X2_consecutive_duplicates_idempotent
                         ["the"; "cat"; "the"; "mat"]))).
  simpl. repeat split; discriminate.
Defined.

(** X3.  The counts of [ocr_save.count_and_extract_keywords]: the count
    without consecutive duplicates is the length of the returned word list
    and never exceeds the total count; it is zero exactly when the total is
    zero; and the returned words are exactly the words of the cleaned text
    that are longer than one character. *)
Theorem X3_capture_counts {CR : CaptureRuntime} (text : string) :
  let '(total_detected_count, non_duplicate_count, _, word_list) :=
    OcrSave.count_and_extract_keywords text in
  non_duplicate_count <= total_detected_count
  /\ non_duplicate_count = length word_list
  /\ (non_duplicate_count = 0 <-> total_detected_count = 0)
  /\ forall w,
       In w word_list
       <-> In w (str_split (lower_text (strip_punctuation text)))
           /\ 1 < str_len w.
Proof.
  unfold OcrSave.count_and_extract_keywords. cbv beta iota zeta.
  rewrite CaptureFacts.delete_consecutive_duplicates_collapse.
  pose proof (CaptureFacts.collapse_length (OcrSave.detected_words text))
    as [Hle Hzero].
  split; [exact Hle|]. split; [reflexivity|]. split; [exact Hzero|].
  intros w. rewrite CaptureFacts.collapse_In.
  unfold OcrSave.detected_words. rewrite filter_In, Nat.ltb_lt. reflexivity.
Qed.

(** X4.  The keywords of [ocr_save.count_and_extract_keywords]: at most
    five, pairwise distinct, each one a returned word that is no stop-word
    and is longer than one character; they stand by descending number of
    occurrences among the returned words that are no stop-words, ties by
    first occurrence, and every such word that is no keyword ranks after
    every keyword. *)
Theorem X4_capture_keywords {CR : CaptureRuntime} (text : string) :
  let '(_, _, keywords, word_list) :=
    OcrSave.count_and_extract_keywords text in
  let filtered_words := filter (not_in OcrSave.stop_words) word_list in
  length keywords <= 5
  /\ NoDup keywords
  /\ (forall k, In k keywords ->
        In k word_list /\ ~ In k OcrSave.stop_words /\ 1 < str_len k)
  /\ StronglySorted (ranks_before filtered_words) keywords
  /\ (forall k w,
        In k keywords -> In w word_list -> ~ In w OcrSave.stop_words ->
        ~ In w keywords -> ranks_before filtered_words k w).
Proof.
  unfold OcrSave.count_and_extract_keywords. cbv beta iota zeta.
  set (word_list :=
         OcrSave.delete_consecutive_duplicates (OcrSave.detected_words text)).
  set (filtered_words := filter (not_in OcrSave.stop_words) word_list).
  destruct (TopFacts.top_words_facts 5 filtered_words)
    as (Hlen & Hnd & Hin & Hsorted & Hcross).
  split; [exact Hlen|]. split; [exact Hnd|]. split; [|split].
  - intros k Hk. apply Hin in Hk. unfold filtered_words in Hk.
    apply filter_In in Hk. destruct Hk as [Hw Hs].
    split; [exact Hw|]. split; [now apply CaptureFacts.not_in_spec|].
    unfold word_list in Hw.
    rewrite CaptureFacts.delete_consecutive_duplicates_collapse,
      CaptureFacts.collapse_In in Hw.
    unfold OcrSave.detected_words in Hw. apply filter_In in Hw.
    now apply Nat.ltb_lt.
  - exact Hsorted.
  - intros k w Hk Hw Hs Hn. apply Hcross; [assumption| |assumption].
    unfold filtered_words. apply filter_In. split; [assumption|].
    now apply CaptureFacts.not_in_spec.
Qed.

Lemma log_frame_appends {CR : CaptureRuntime} (LOG_DATA : list record)
    (frame : string * string) :
  OcrSave.log_frame LOG_DATA frame
  = LOG_DATA ++ OcrSave.log_frame [] frame.
Proof.
  unfold OcrSave.log_frame. destruct frame as [t text].
  destruct (OcrSave.count_and_extract_keywords text) as [[[a b] c] d].
  destruct (0 <? b)%nat; [reflexivity | now rewrite app_nil_r].
Qed.

Lemma log_of_run_from {CR : CaptureRuntime} (frames : list (string * string))
    (LOG_DATA : list record) :
  fold_left OcrSave.log_frame frames LOG_DATA
  = LOG_DATA ++ flat_map (OcrSave.log_frame []) frames.
Proof.
  revert LOG_DATA; induction frames as [|f frames IH]; intros LOG_DATA.
  - simpl. now rewrite app_nil_r.
  - cbn [fold_left flat_map]. rewrite IH, log_frame_appends.
    now rewrite <- app_assoc.
Qed.

Lemma log_frame_well_formed {CR : CaptureRuntime} (frame : string * string) :
  Forall well_formed_event (OcrSave.log_frame [] frame).
Proof.
  unfold OcrSave.log_frame. destruct frame as [t text].
  unfold OcrSave.count_and_extract_keywords. cbv beta iota zeta.
  destruct (Nat.ltb_spec 0
              (length (OcrSave.delete_consecutive_duplicates
                         (OcrSave.detected_words text)))) as [Hpos|_];
    [|constructor].
  constructor; [|constructor].
  unfold well_formed_event. cbn [non_duplicate_count total_words_detected
                                   detected_words_list keywords].
  pose proof (CaptureFacts.delete_consecutive_duplicates_collapse
                (OcrSave.detected_words text)) as E.
  pose proof (CaptureFacts.collapse_length (OcrSave.detected_words text))
    as [Hle _].
  rewrite <- E in Hle.
  split; [lia|]. split; [reflexivity|]. split.
  - apply (TopFacts.top_words_facts 5).
  - rewrite E. apply CaptureFacts.no_repeat_collapse.
Qed.

(** X5.  The log that [ocr_save.py] accumulates over a run: a frame is
    logged exactly when its text has a word longer than one character, in
    frame order and under the clock reading of the frame; and every logged
    record is well formed: at least one word, the count without duplicates
    at most the total count and equal to the length of the word list, at
    most five keywords, no word repeated at once. *)
Theorem X5_logged_events_well_formed {CR : CaptureRuntime}
    (frames : list (string * string)) :
  Forall well_formed_event (OcrSave.log_of_run frames)
  /\ map timestamp (OcrSave.log_of_run frames)
     = map fst
         (filter (fun frame =>
                    (0 <? length (OcrSave.detected_words (snd frame)))%nat)
                 frames)
  /\ length (OcrSave.log_of_run frames) <= length frames.
Proof.
  unfold OcrSave.log_of_run. rewrite log_of_run_from. cbn [app].
  assert (Stamps :
            map timestamp (flat_map (OcrSave.log_frame []) frames)
            = map fst
                (filter (fun frame =>
                           (0 <? length (OcrSave.detected_words (snd frame)))%nat)
                        frames)).
  { induction frames as [|[t text] frames IH]; [reflexivity|].
    cbn [flat_map filter snd]. rewrite map_app, IH.
    unfold OcrSave.log_frame, OcrSave.count_and_extract_keywords.
    cbv beta iota zeta.
    rewrite CaptureFacts.delete_consecutive_duplicates_collapse.
    pose proof (CaptureFacts.collapse_length (OcrSave.detected_words text))
      as [_ Hzero].
    destruct (Nat.ltb_spec 0 (length (collapse (OcrSave.detected_words text))))
      as [Hpos|Hz];
      destruct (Nat.ltb_spec 0 (length (OcrSave.detected_words text)))
        as [Hpos'|Hz']; try reflexivity; exfalso; lia. }
  split; [|split].
  - clear Stamps. induction frames as [|f frames IH]; [constructor|].
    cbn [flat_map]. apply Forall_app. split.
    + apply log_frame_well_formed.
    + exact IH.
  - exact Stamps.
  - rewrite <- (length_map timestamp), Stamps, length_map.
    apply filter_length_le.
Qed.

(** X6.  [ocr.count_and_extract_keywords]: the word count is the number of
    all words of the cleaned text, stop-words and single characters
    included, while the keywords are at most five and no more than the word
    count, pairwise distinct, each a word of the text that is no stop-word
    and is longer than one character; they stand by descending number of
    occurrences, ties by first occurrence. *)
Theorem X6_live_keywords {CR : CaptureRuntime} (text : string) :
  let words := str_split (lower_text (strip_punctuation text)) in
  let filtered_words :=
    filter (fun word => not_in Ocr.stop_words word && (1 <? str_len word)%nat)
           words in
  let '(word_count, keywords) := Ocr.count_and_extract_keywords text in
  word_count = length words
  /\ length keywords <= 5
  /\ length keywords <= word_count
  /\ NoDup keywords
  /\ (forall k, In k keywords ->
        In k words /\ ~ In k Ocr.stop_words /\ 1 < str_len k)
  /\ StronglySorted (ranks_before filtered_words) keywords.
Proof.
  intros words filtered_words.
  unfold Ocr.count_and_extract_keywords. cbv beta iota zeta.
  fold words. fold filtered_words.
  destruct (TopFacts.top_words_facts 5 filtered_words)
    as (Hlen & Hnd & Hin & Hsorted & _).
  assert (Hk : forall k,
             In k (map fst (Py.most_common 5 (Py.Counter filtered_words))) ->
             In k words /\ ~ In k Ocr.stop_words /\ 1 < str_len k).
  { intros k Hk. apply Hin in Hk. unfold filtered_words in Hk.
    apply filter_In in Hk. destruct Hk as [Hw Hs].
    apply andb_true_iff in Hs. destruct Hs as [Hs Hl].
    split; [exact Hw|]. split; [now apply CaptureFacts.not_in_spec|].
    now apply Nat.ltb_lt. }
  split; [reflexivity|]. split; [exact Hlen|]. split; [|split; [exact Hnd|]].
  - apply NoDup_incl_length; [exact Hnd|]. intros k Hkk. now apply Hk.
  - split; [exact Hk | exact Hsorted].
Qed.

(* ------------------------------------------------------------------ *)
(** * More of the analysis *)
(* ------------------------------------------------------------------ *)

Module SessionFacts.

Local Open Scope list_scope.

Lemma timedEvents_nil {TR : TimeRuntime} (log_data : list record) :
  timedEvents log_data = [] <-> validEvents log_data = [].
Proof.
  rewrite <- AnalysisFacts.timedEvents_rec. split.
  - now intros ->.
  - now destruct (timedEvents log_data).
Qed.

(** Dropping the records that do not parse changes nothing for the ones
    that do. *)
Lemma timedEvents_valid {TR : TimeRuntime} (log_data : list record) :
  timedEvents (validEvents log_data) = timedEvents log_data.
Proof.
  induction log_data as [|r log_data IH]; [reflexivity|].
  unfold validEvents, timedEvents in *. cbn [filter flat_map].
  destruct (parses r) eqn:P; unfold parses in P;
    destruct (parsedTime r) eqn:E; try discriminate.
  - cbn [flat_map]. now rewrite E, IH.
  - exact IH.
Qed.

(** Insertion keeps the items of each key in their order. *)
Lemma insert_asc_stable {A : Type} (key : A -> Z) (t : Z) (x : A)
    (l : list A) :
  filter (fun r => (key r =? t)%Z) (Py.insert_asc Z.leb key x l)
  = filter (fun r => (key r =? t)%Z) (x :: l).
Proof.
  induction l as [|y l IH]; [reflexivity|].
  cbn [Py.insert_asc]. destruct (Z.leb_spec (key x) (key y)) as [Hle|Hlt];
    [reflexivity|].
  cbn [filter] in *. rewrite IH.
  destruct (Z.eqb_spec (key x) t) as [Ex|Nx];
    destruct (Z.eqb_spec (key y) t) as [Ey|Ny]; try reflexivity.
  exfalso. lia.
Qed.

Lemma sorted_stable {A : Type} (key : A -> Z) (t : Z) (l : list A) :
  filter (fun r => (key r =? t)%Z) (Py.sorted Z.leb key l)
  = filter (fun r => (key r =? t)%Z) l.
Proof.
  induction l as [|x l IH]; [reflexivity|].
  cbn [Py.sorted fold_right]. rewrite insert_asc_stable.
  cbn [filter]. unfold Py.sorted in IH. now rewrite IH.
Qed.

(** In a list sorted by time the first is the earliest and the last the
    latest. *)
Lemma sorted_first_last (s : list timed_record) (d r : timed_record) :
  StronglySorted (fun a b => (dt_time a <= dt_time b)%Z) s ->
  In r s ->
  (dt_time (nth 0 s d) <= dt_time r <= dt_time (List.last s d))%Z.
Proof.
  intros Hs Hr. split.
  - destruct s as [|x s]; [destruct Hr|]. cbn [nth].
    inversion Hs as [|? ? _ Hx]; subst. rewrite Forall_forall in Hx.
    destruct Hr as [<-|Hr]; [lia | now apply Hx].
  - revert r Hr. induction Hs as [|x s Hs IH Hx]; intros r Hr;
      [destruct Hr|].
    destruct s as [|y s].
    + destruct Hr as [<-|[]]. cbn. lia.
    + change (List.last (x :: y :: s) d) with (List.last (y :: s) d).
      destruct Hr as [<-|Hr].
      * rewrite Forall_forall in Hx.
        assert (Hy : (dt_time x <= dt_time y)%Z) by (apply Hx; now left).
        specialize (IH y (or_introl eq_refl)). lia.
      * now apply IH.
Qed.

Lemma nth_last_In {A : Type} (s : list A) (d : A) :
  s <> [] -> In (nth 0 s d) s /\ In (List.last s d) s.
Proof.
  intros H. destruct s as [|x s]; [contradiction|]. split; [now left|].
  clear H. revert x; induction s as [|y s IH]; intros x; [now left|].
  change (List.last (x :: y :: s) d) with (List.last (y :: s) d).
  right. apply IH.
Qed.

(** The scan, from the second record on, in the words of the design. *)
Lemma scan_events_from (pre : list timed_record) (p : timed_record)
    (suf : list timed_record) :
  flat_map
    (fun ir => Analyzer.events_at ((pre ++ [p]) ++ suf) (fst ir) (snd ir))
    (combine (seq (S (length pre)) (length suf)) suf)
  = keyEvents (Some p) suf Analyzer.ACTIVITY_THRESHOLD
              (inject_Z Analyzer.GAP_THRESHOLD_SECONDS).
Proof.
  revert pre p; induction suf as [|r suf IH]; intros pre p; [reflexivity|].
  cbn [length seq combine flat_map fst snd keyEvents].
  replace ((pre ++ [p]) ++ r :: suf) with (((pre ++ [p]) ++ [r]) ++ suf)
    by (now rewrite <- (app_assoc (pre ++ [p]) [r] suf)).
  replace (S (S (length pre))) with (S (length (pre ++ [p])))
    by (rewrite length_app; simpl; lia).
  rewrite IH. unfold Analyzer.events_at.
  cbn [Nat.ltb Nat.leb].
  replace (nth (S (length pre) - 1) (((pre ++ [p]) ++ [r]) ++ suf) r) with p.
  - now rewrite <- app_assoc.
  - replace (S (length pre) - 1) with (length pre) by lia.
    rewrite <- !app_assoc. cbn [app]. now rewrite nth_middle.
Qed.

Lemma scan_events_keyEvents (timed_records : list timed_record) :
  Analyzer.scan_events timed_records
  = keyEvents None timed_records Analyzer.ACTIVITY_THRESHOLD
              (inject_Z Analyzer.GAP_THRESHOLD_SECONDS).
Proof.
  unfold Analyzer.scan_events, Py.enumerate.
  destruct timed_records as [|r suf]; [reflexivity|].
  cbn [length seq combine flat_map fst snd keyEvents].
  pose proof (scan_events_from [] r suf) as E. cbn [app length] in E.
  rewrite E.
  unfold Analyzer.events_at. cbn [Nat.ltb Nat.leb app].
  now rewrite app_nil_r.
Qed.

Lemma keyEvents_real (prev : option timed_record)
    (events : list timed_record) (a : Z) (g : Q) :
  ~ In NoSignificantEvents (keyEvents prev events a g).
Proof.
  revert prev; induction events as [|cur rest IH]; intros prev H;
    [exact H|].
  cbn [keyEvents] in H. apply in_app_or in H. destruct H as [H|H].
  - destruct (_ <=? _)%Z; [destruct H as [H|[]]; discriminate | exact H].
  - apply in_app_or in H. destruct H as [H|H]; [|exact (IH _ H)].
    destruct prev as [p|]; [|exact H].
    destruct (Qle_bool _ _); [destruct H as [H|[]]; discriminate | exact H].
Qed.

Lemma keyEvents_length_some (p : timed_record)
    (events : list timed_record) (a : Z) (g : Q) :
  length (keyEvents (Some p) events a g) <= 2 * length events.
Proof.
  revert p; induction events as [|cur rest IH]; intros p; [simpl; lia|].
  cbn [keyEvents]. rewrite !length_app. specialize (IH cur).
  cbn [length].
  destruct (_ <=? _)%Z; destruct (Qle_bool _ _); cbn [length]; lia.
Qed.

Lemma keyEvents_length_none (events : list timed_record) (a : Z) (g : Q) :
  length (keyEvents None events a g) <= 2 * length events - 1.
Proof.
  destruct events as [|cur rest]; [simpl; lia|].
  cbn [keyEvents]. rewrite !length_app.
  pose proof (keyEvents_length_some cur rest a g).
  cbn [length]. destruct (_ <=? _)%Z; cbn [length]; lia.
Qed.

End SessionFacts.

Local Open Scope list_scope.

(** The times the first analyzer reports, and its line of themes. *)
Lemma analyzer_times {TR : TimeRuntime} (log_data : list record)
    (stdout : list string) (a : Analyzer.analysis) :
  Analyzer.analyse log_data = (stdout, inr a) ->
  exists d : timed_record,
    session log_data <> []
    /\ Analyzer.start_time a
       = strftime_ms (dt_time (nth 0 (session log_data) d))
    /\ Analyzer.end_time a
       = strftime_ms (dt_time (List.last (session log_data) d))
    /\ Analyzer.total_duration a
       = total_seconds (dt_time (List.last (session log_data) d)
                        - dt_time (nth 0 (session log_data) d))%Z
    /\ Analyzer.inferred_content_keywords a
       = Py.join ", " (firstn 5 (Analyzer.top_content_words a)).
Proof.
  unfold Analyzer.analyse. destruct log_data as [|r log_data]; [discriminate|].
  rewrite AnalysisFacts.analyzer_parse_loop. cbn [app].
  unfold session, sortByTime.
  destruct (timedEvents (r :: log_data)) as [|r0 rs] eqn:E; [discriminate|].
  intros [= <- <-]. exists r0. cbn.
  split; [|repeat split; reflexivity].
  intros H.
  pose proof (Permutation_length
                (PyFacts.sorted_permutation Z.leb dt_time (r0 :: rs))) as L.
  unfold Py.sorted in L. cbn [fold_right] in L. rewrite H in L.
  discriminate L.
Qed.

Lemma smart_analyzer_times
    {TX : TextRuntime} {SA : ScoreArith} {TR : TimeRuntime}
    (log_data : list record) (stdout : list string)
    (a : SmartAnalyzer.analysis) :
  SmartAnalyzer.analyse log_data = (stdout, inr a) ->
  exists d : timed_record,
    session log_data <> []
    /\ SmartAnalyzer.start_time a
       = strftime_ms (dt_time (nth 0 (session log_data) d))
    /\ SmartAnalyzer.end_time a
       = strftime_ms (dt_time (List.last (session log_data) d))
    /\ SmartAnalyzer.total_duration a
       = total_seconds (dt_time (List.last (session log_data) d)
                        - dt_time (nth 0 (session log_data) d))%Z
    /\ SmartAnalyzer.content_summary_narrative a
       = SmartAnalyzer.generate_extractive_summary
           (flat_map (fun r => detected_words_list (rec r))
                     (session log_data))
           SmartAnalyzer.default_num_sentences.
Proof.
  unfold SmartAnalyzer.analyse.
  destruct log_data as [|r log_data]; [discriminate|].
  rewrite AnalysisFacts.smart_analyzer_parse_loop. cbn [app].
  unfold session, sortByTime.
  destruct (timedEvents (r :: log_data)) as [|r0 rs] eqn:E; [discriminate|].
  intros [= <- <-]. exists r0. cbn.
  split; [|repeat split; reflexivity].
  intros H.
  pose proof (Permutation_length
                (PyFacts.sorted_permutation Z.leb dt_time (r0 :: rs))) as L.
  unfold Py.sorted in L. cbn [fold_right] in L. rewrite H in L.
  discriminate L.
Qed.

(** X7.  Both analyzers return early exactly when the log has no record
    with a timestamp in one of the two formats: with the message "No text
    detection events were recorded..." on the empty log and "No valid time
    data found..." on a log with records; they assemble a report exactly
    when the log has a valid event. *)
Theorem X7_report_iff_a_valid_event
    {TX : TextRuntime} {SA : ScoreArith} {TR : TimeRuntime}
    (log_data : list record) :
  let early : string :=
    match log_data with
    | [] => "No text detection events were recorded. Cannot generate summary."
    | _ :: _ =>
        "No valid time data found in the log. Cannot generate summary."
    end%string in
  match snd (Analyzer.analyse log_data) with
  | inl message => validEvents log_data = [] /\ message = early
  | inr _ => validEvents log_data <> []
  end
  /\ match snd (SmartAnalyzer.analyse log_data) with
     | inl message => validEvents log_data = [] /\ message = early
     | inr _ => validEvents log_data <> []
     end.
Proof.
  intros early. unfold early, Analyzer.analyse, SmartAnalyzer.analyse.
  destruct log_data as [|r log_data]; [now split|].
  rewrite AnalysisFacts.analyzer_parse_loop,
    AnalysisFacts.smart_analyzer_parse_loop.
  cbn [app].
  pose proof (SessionFacts.timedEvents_nil (r :: log_data)) as N.
  destruct (timedEvents (r :: log_data)) as [|r0 rs]; cbn [snd].
  - split; (split; [now apply N | reflexivity]).
  - split; intros H; apply N in H; discriminate H.
Qed.

(** X8.  The first analyzer prints one warning for each record whose
    timestamp is in neither format, in the order of the log and naming the
    timestamp, and nothing else: the number of lines printed and the number
    of valid events add up to the number of records. *)
Theorem X8_one_warning_per_dropped_record {TR : TimeRuntime}
    (log_data : list record) :
  let stdout := fst (Analyzer.generate_narrative_summary log_data) in
  stdout
  = map (fun r => ("[WARNING] Skipping record due to bad timestamp: "
                     ++ timestamp r)%string)
        (droppedEvents log_data)
  /\ length stdout + length (validEvents log_data) = length log_data.
Proof.
  intros stdout. unfold stdout. rewrite analyzer_warns_on_dropped.
  split; [reflexivity|].
  rewrite length_map. unfold droppedEvents, validEvents.
  rewrite Nat.add_comm. apply filter_length.
Qed.

(** X9.  The sort by parsed time that both analyzers apply: the sorted
    records are the records given, none lost and none added, in
    non-decreasing order of time, and records with the same time keep the
    order they had in the log. *)
Theorem X9_sort_by_time_is_stable (timed_records : list timed_record) :
  let sorted := Py.sorted Z.leb dt_time timed_records in
  Permutation timed_records sorted
  /\ StronglySorted (fun a b => (dt_time a <= dt_time b)%Z) sorted
  /\ forall t : datetime,
       filter (fun r => (dt_time r =? t)%Z) sorted
       = filter (fun r => (dt_time r =? t)%Z) timed_records.
Proof.
  intros sorted. unfold sorted. split; [|split].
  - apply PyFacts.sorted_permutation.
  - apply AnalysisFacts.sortByTime_sorted.
  - intros t. apply SessionFacts.sorted_stable.
Qed.

(** X10.  When the analyzers report, the start time is the time of the
    earliest valid event and the end time that of the latest, whatever the
    order of the log; the duration is their difference, and is never
    negative. *)
Theorem X10_span_from_earliest_to_latest
    {TX : TextRuntime} {SA : ScoreArith} {TR : TimeRuntime}
    (log_data : list record)
    (stdout1 stdout2 : list string)
    (a1 : Analyzer.analysis) (a2 : SmartAnalyzer.analysis) :
  Analyzer.analyse log_data = (stdout1, inr a1) ->
  SmartAnalyzer.analyse log_data = (stdout2, inr a2) ->
  exists first last : timed_record,
    In first (timedEvents log_data) /\ In last (timedEvents log_data)
    /\ (forall r, In r (timedEvents log_data) ->
          (dt_time first <= dt_time r <= dt_time last)%Z)
    /\ Analyzer.start_time a1 = strftime_ms (dt_time first)
    /\ Analyzer.end_time a1 = strftime_ms (dt_time last)
    /\ Analyzer.total_duration a1
       = total_seconds (dt_time last - dt_time first)%Z
    /\ SmartAnalyzer.start_time a2 = strftime_ms (dt_time first)
    /\ SmartAnalyzer.end_time a2 = strftime_ms (dt_time last)
    /\ SmartAnalyzer.total_duration a2
       = total_seconds (dt_time last - dt_time first)%Z
    /\ Qle (0 # 1) (Analyzer.total_duration a1)
    /\ Qle (0 # 1) (SmartAnalyzer.total_duration a2).
Proof.
  intros H1 H2.
  apply analyzer_times in H1. destruct H1 as (d & Hne & S1 & E1 & D1 & _).
  apply smart_analyzer_times in H2.
  destruct H2 as (d' & _ & S2 & E2 & D2 & _).
  pose proof (AnalysisFacts.sortByTime_permutation (timedEvents log_data))
    as P. fold (session log_data) in P.
  pose proof (AnalysisFacts.sortByTime_sorted (timedEvents log_data)) as Srt.
  fold (session log_data) in Srt.
  destruct (SessionFacts.nth_last_In (session log_data) d Hne) as [If Il].
  assert (Ed : forall e, nth 0 (session log_data) e = nth 0 (session log_data) d
                         /\ List.last (session log_data) e
                            = List.last (session log_data) d).
  { intros e. destruct (session log_data) as [|x s]; [contradiction|].
    split; [reflexivity|]. clear. revert x.
    induction s as [|y s IH]; intros x; [reflexivity|].
    change (List.last (x :: y :: s) e) with (List.last (y :: s) e).
    change (List.last (x :: y :: s) d) with (List.last (y :: s) d).
    apply IH. }
  destruct (Ed d') as [Ef El]. rewrite Ef, El in *.
  exists (nth 0 (session log_data) d), (List.last (session log_data) d).
  assert (B : forall r, In r (timedEvents log_data) ->
              (dt_time (nth 0 (session log_data) d) <= dt_time r
               <= dt_time (List.last (session log_data) d))%Z).
  { intros r Hr. apply SessionFacts.sorted_first_last; [exact Srt|].
    now apply (Permutation_in r P). }
  assert (Q0 : Qle (0 # 1)
                 (total_seconds
                    (dt_time (List.last (session log_data) d)
                     - dt_time (nth 0 (session log_data) d))%Z)).
  { unfold total_seconds, Qle. cbn [Qnum Qden].
    specialize (B _ (Permutation_in _ (Permutation_sym P) If)). lia. }
  split; [now apply (Permutation_in _ (Permutation_sym P))|].
  split; [now apply (Permutation_in _ (Permutation_sym P))|].
  split; [exact B|].
  rewrite D1, D2. repeat split; assumption.
Qed.

(** X10, a run: the sample log is given out of order. *)
Lemma X10_span_from_earliest_to_latest_witness :
  exists (a1 : Analyzer.analysis) (a2 : SmartAnalyzer.analysis),
    snd (Analyzer.analyse (TR := Rules.time) Samples.good_log) = inr a1
    /\ snd (SmartAnalyzer.analyse (TX := Rules.text) (SA := Rules.scores)
              (TR := Rules.time) Samples.good_log)
       = inr a2
    /\ Qle (0 # 1) (Analyzer.total_duration a1)
    /\ Qle (0 # 1) (SmartAnalyzer.total_duration a2).
Proof.
  eexists. eexists.
  split; [reflexivity|]. split; [reflexivity|].
  destruct (@X10_span_from_earliest_to_latest
              Rules.text Rules.scores Rules.time
              Samples.good_log _ _ _ _ eq_refl eq_refl)
    as (first & last & _ & _ & _ & _ & _ & _ & _ & _ & _ & Q1 & Q2).
  split; [exact Q1 | exact Q2].
Defined.

Module TableFacts.
Import Py DictFacts.

Lemma dict_get_item {V : Type} (d : dict V) (k : string) (v : V) :
  NoDup (keys d) -> In (k, v) d -> dict_get d k = Some v.
Proof.
  induction d as [|[k0 v0] d IH]; intros ND H; [destruct H|].
  cbn [dict_get]. cbn [keys map fst] in ND.
  inversion ND as [|? ? Hn ND']; subst.
  destruct H as [E|H].
  - injection E as -> ->. now rewrite String.eqb_refl.
  - destruct (String.eqb_spec k0 k) as [->|N]; [|now apply IH].
    exfalso. apply Hn. unfold keys. apply in_map_iff. now exists (k, v).
Qed.

Lemma Counter_keys_NoDup (l : list string) : NoDup (keys (Counter l)).
Proof.
  destruct (CounterFacts.Counter_counted l) as (_ & Order & _).
  exact (CounterFacts.StronglySorted_lt_NoDup _ _ Order).
Qed.

(** Looking a word up in the counter gives the number of its occurrences,
    and nothing for a word that does not occur. *)
Lemma Counter_lookup (l : list string) (w : string) :
  dict_get (Counter l) w
  = if in_dec string_dec w l then Some (occurrences w l) else None.
Proof.
  destruct (CounterFacts.Counter_counted l) as (Items & _ & All).
  destruct (in_dec string_dec w l) as [Hin|Hnot].
  - pose proof (All w Hin) as Hk. unfold keys in Hk.
    apply in_map_iff in Hk. destruct Hk as ([k c] & E & Hkc).
    cbn [fst] in E. subst k.
    destruct (Items _ Hkc) as [_ Ec]. cbn [fst snd] in Ec. subst c.
    apply dict_get_item; [apply Counter_keys_NoDup | exact Hkc].
  - apply dict_get_none_iff. intros Hk. apply Hnot.
    unfold keys in Hk. apply in_map_iff in Hk.
    destruct Hk as (kv & <- & Hkv). now apply Items.
Qed.

Lemma sum_values_dict_set (d : dict Z) (k : string) (v : Z) :
  sum (values (dict_set d k v))
  = (sum (values d) + v
     - match dict_get d k with Some c => c | None => 0 end)%Z.
Proof.
  induction d as [|[k0 v0] d IH].
  - cbn. lia.
  - cbn [dict_set dict_get].
    destruct (String.eqb k0 k); cbn [values map snd].
    + rewrite !PyFacts.sum_cons. lia.
    + rewrite !PyFacts.sum_cons. unfold values in IH. rewrite IH. lia.
Qed.

Lemma sum_values_count_one (d : dict Z) (w : string) :
  sum (values (count_one d w)) = (sum (values d) + 1)%Z.
Proof.
  unfold count_one. destruct (dict_get d w) as [c|] eqn:E;
    rewrite sum_values_dict_set, E; lia.
Qed.

(** The counts add up to the number of words. *)
Lemma Counter_total (l : list string) :
  sum (values (Counter l)) = Z.of_nat (length l).
Proof.
  induction l as [|w l IH] using rev_ind; [reflexivity|].
  rewrite CounterFacts.Counter_snoc, sum_values_count_one, IH, length_app.
  cbn [length]. lia.
Qed.

Lemma occurrences_positive (w : string) (l : list string) :
  In w l -> (1 <= occurrences w l)%Z.
Proof.
  induction l as [|x l IH]; [intros []|].
  cbn [occurrences]. destruct (String.eqb_spec x w) as [->|N].
  - intros _. clear IH. induction l as [|y l IH]; cbn [occurrences]; [lia|].
    destruct (String.eqb y w); lia.
  - intros [E|H]; [contradiction | now apply IH].
Qed.

End TableFacts.

Lemma session_rec_in {TR : TimeRuntime} (log_data : list record)
    (r : timed_record) :
  In r (session log_data) -> In (rec r) log_data.
Proof.
  intros H.
  apply (Permutation_in r
           (Permutation_sym
              (AnalysisFacts.sortByTime_permutation (timedEvents log_data))))
    in H.
  apply (in_map rec) in H. rewrite AnalysisFacts.timedEvents_rec in H.
  unfold validEvents in H. now apply filter_In in H.
Qed.

(** X11.  When the analyzers report, the key events are listed in scan
    order over the session: for each event in order of time, first its
    high-activity flag, then the pause that separates it from the event
    before; when the scan finds nothing, the list is the one line that says
    so. *)
Theorem X11_key_events_in_scan_order
    {TX : TextRuntime} {SA : ScoreArith} {TR : TimeRuntime}
    (log_data : list record)
    (stdout1 stdout2 : list string)
    (a1 : Analyzer.analysis) (a2 : SmartAnalyzer.analysis) :
  Analyzer.analyse log_data = (stdout1, inr a1) ->
  SmartAnalyzer.analyse log_data = (stdout2, inr a2) ->
  let found := keyEvents None (session log_data) 50 (5 # 1) in
  Analyzer.important_events a1
  = match found with [] => [NoSignificantEvents] | _ :: _ => found end
  /\ SmartAnalyzer.important_events a2
     = match found with [] => [NoSignificantEvents] | _ :: _ => found end.
Proof.
  intros H1 H2 found.
  apply analyzer_report in H1. destruct H1 as (_ & _ & _ & _ & E1).
  apply smart_analyzer_report in H2. destruct H2 as (_ & _ & _ & _ & E2).
  rewrite E1, E2. unfold Analyzer.important_events_of.
  rewrite SessionFacts.scan_events_keyEvents. subst found.
  change Analyzer.ACTIVITY_THRESHOLD with 50%Z.
  change (inject_Z Analyzer.GAP_THRESHOLD_SECONDS) with (5 # 1)%Q.
  destruct (keyEvents None (session log_data) 50 (5 # 1)%Q);
    split; reflexivity.
Qed.

(** X11, a run: the sample log's dense event comes last, its flag before
    the pause that precedes it. *)
Lemma X11_key_events_in_scan_order_witness :
  exists (a1 : Analyzer.analysis) (a2 : SmartAnalyzer.analysis),
    snd (Analyzer.analyse (TR := Rules.time) Samples.good_log) = inr a1
    /\ snd (SmartAnalyzer.analyse (TX := Rules.text) (SA := Rules.scores)
              (TR := Rules.time) Samples.good_log)
       = inr a2
    /\ Analyzer.important_events a1
       = [HighActivity "09:00:12.000" 55;
          PauseBreak "09:00:03.000" "09:00:12.000" (9000000 # 1000000)]
    /\ SmartAnalyzer.important_events a2
       = [HighActivity "09:00:12.000" 55;
          PauseBreak "09:00:03.000" "09:00:12.000" (9000000 # 1000000)].
Proof.
  eexists. eexists.
  split; [reflexivity|]. split; [reflexivity|].
  exact (@X11_key_events_in_scan_order
           Rules.text Rules.scores Rules.time
           Samples.good_log _ _ _ _ eq_refl eq_refl).
Defined.

(** X12.  The list of key events, in either analyzer, is never empty and
    has at most one entry for the first record and two for every other;
    the line "No significant pauses or high-activity events" is in it
    exactly when there is neither a gap nor a high-activity event, and is
    then the only entry. *)
Theorem X12_key_events_never_empty (timed_records : list timed_record) :
  let events := Analyzer.important_events_of timed_records in
  SmartAnalyzer.important_events_of timed_records = events
  /\ events <> []
  /\ length events <= Nat.max 1 (2 * length timed_records - 1)
  /\ (In NoSignificantEvents events
      <-> detectGaps timed_records (5 # 1) = []
          /\ detectHighActivity timed_records 50 = [])
  /\ (In NoSignificantEvents events -> events = [NoSignificantEvents]).
Proof.
  intros events. split; [reflexivity|].
  pose proof (AnalysisFacts.scan_pauses timed_records) as P.
  pose proof (AnalysisFacts.scan_activities timed_records) as A.
  pose proof (SessionFacts.scan_events_keyEvents timed_records) as K.
  pose proof (SessionFacts.keyEvents_real None timed_records
                Analyzer.ACTIVITY_THRESHOLD
                (inject_Z Analyzer.GAP_THRESHOLD_SECONDS)) as Real.
  pose proof (SessionFacts.keyEvents_length_none timed_records
                Analyzer.ACTIVITY_THRESHOLD
                (inject_Z Analyzer.GAP_THRESHOLD_SECONDS)) as Len.
  rewrite <- K in Real, Len.
  change (inject_Z Analyzer.GAP_THRESHOLD_SECONDS) with (5 # 1)%Q in P.
  change Analyzer.ACTIVITY_THRESHOLD with 50%Z in A.
  unfold events, Analyzer.important_events_of.
  destruct (Analyzer.scan_events timed_records) as [|e es] eqn:S.
  - split; [discriminate|]. split; [cbn [length]; lia|]. split.
    + split; [intros _; now rewrite <- P, <- A | intros _; now left].
    + reflexivity.
  - split; [discriminate|]. split; [lia|]. split.
    + split; [intros H; now elim Real|].
      intros [Hp Ha]. exfalso.
      assert (He : In e (filter is_pause (e :: es))
                   \/ In e (filter is_activity (e :: es))).
      { destruct e; [right|left|exfalso; apply Real; now left];
          apply filter_In; (split; [now left | reflexivity]). }
      rewrite P, A, Hp, Ha in He. destruct He as [[]|[]].
    + intros H. now elim Real.
Qed.

Lemma droppedEvents_valid {TR : TimeRuntime} (log_data : list record) :
  droppedEvents (validEvents log_data) = [].
Proof.
  unfold droppedEvents, validEvents.
  induction log_data as [|r log_data IH]; [reflexivity|].
  cbn [filter]. destruct (parses r) eqn:E; [|exact IH].
  cbn [filter]. now rewrite E.
Qed.

(** X13.  Records whose timestamp is in neither format do not change the
    report: when the log has a valid event, each analyzer returns for the
    log what it returns for the log without the bad records, and the first
    analyzer prints nothing for the latter. *)
Theorem X13_report_depends_on_valid_records_only
    {TX : TextRuntime} {SA : ScoreArith} {TR : TimeRuntime}
    (log_data : list record) :
  validEvents log_data <> [] ->
  snd (Analyzer.generate_narrative_summary log_data)
  = snd (Analyzer.generate_narrative_summary (validEvents log_data))
  /\ fst (Analyzer.generate_narrative_summary (validEvents log_data)) = []
  /\ snd (SmartAnalyzer.generate_narrative_summary log_data)
     = snd (SmartAnalyzer.generate_narrative_summary (validEvents log_data)).
Proof.
  intros Hne. split; [|split].
  - unfold Analyzer.generate_narrative_summary, Analyzer.analyse.
    destruct log_data as [|r log_data]; [contradiction|].
    destruct (validEvents (r :: log_data)) as [|v vs] eqn:E; [contradiction|].
    rewrite !AnalysisFacts.analyzer_parse_loop. cbn [app].
    rewrite <- E, SessionFacts.timedEvents_valid.
    destruct (timedEvents (r :: log_data)); reflexivity.
  - rewrite analyzer_warns_on_dropped, droppedEvents_valid. reflexivity.
  - unfold SmartAnalyzer.generate_narrative_summary, SmartAnalyzer.analyse.
    destruct log_data as [|r log_data]; [contradiction|].
    destruct (validEvents (r :: log_data)) as [|v vs] eqn:E; [contradiction|].
    rewrite !AnalysisFacts.smart_analyzer_parse_loop. cbn [app].
    rewrite <- E, SessionFacts.timedEvents_valid.
    destruct (timedEvents (r :: log_data)); reflexivity.
Qed.

(** X13, a run: the log with the bad record and the log of its valid
    records give the same report. *)
Lemma X13_report_depends_on_valid_records_only_witness :
  snd (Analyzer.generate_narrative_summary (TR := Rules.time)
         Samples.log_with_bad_timestamp)
  = snd (Analyzer.generate_narrative_summary (TR := Rules.time)
           (validEvents (TR := Rules.time) Samples.log_with_bad_timestamp)).
Proof.
  refine (proj1 (@X13_report_depends_on_valid_records_only
                   Rules.text Rules.scores Rules.time
                   Samples.log_with_bad_timestamp _)).
  vm_compute. discriminate.
Defined.

(** X14.  The word table of the report: looking up a word that occurs in
    the word lists of the valid events gives the number of its occurrences
    there, looking up any other word gives nothing; no word has two
    entries; the counts add up to the number of words, and the number of
    entries (the "TOTAL UNIQUE WORDS" of the report) is at most that
    number. *)
Theorem X14_word_table_counts_occurrences
    {TR : TimeRuntime} (log_data : list record)
    (stdout : list string) (a : Analyzer.analysis) :
  Analyzer.analyse log_data = (stdout, inr a) ->
  let all_content_words :=
    flat_map (fun r => detected_words_list (rec r)) (session log_data) in
  (forall w, In w all_content_words ->
     Py.dict_get (Analyzer.word_counts a) w
     = Some (occurrences w all_content_words))
  /\ (forall w, ~ In w all_content_words ->
        Py.dict_get (Analyzer.word_counts a) w = None)
  /\ NoDup (Py.keys (Analyzer.word_counts a))
  /\ Py.sum (Py.values (Analyzer.word_counts a))
     = Z.of_nat (length all_content_words)
  /\ length (Analyzer.word_counts a) <= length all_content_words.
Proof.
  intros H all_content_words.
  apply analyzer_report in H. destruct H as (_ & _ & W & _).
  fold all_content_words in W. rewrite W.
  split; [|split; [|split; [|split]]].
  - intros w Hw. rewrite TableFacts.Counter_lookup.
    destruct (in_dec string_dec w all_content_words);
      [reflexivity | contradiction].
  - intros w Hw. rewrite TableFacts.Counter_lookup.
    destruct (in_dec string_dec w all_content_words);
      [contradiction | reflexivity].
  - apply TableFacts.Counter_keys_NoDup.
  - apply TableFacts.Counter_total.
  - rewrite <- (length_map fst). apply NoDup_incl_length.
    + apply TableFacts.Counter_keys_NoDup.
    + intros w Hw. apply in_map_iff in Hw. destruct Hw as (kv & <- & Hkv).
      now apply (CounterFacts.Counter_counted all_content_words).
Qed.

(** X14, a run: in the sample log [gamma] occurs three times. *)
Lemma X14_word_table_counts_occurrences_witness :
  exists a : Analyzer.analysis,
    snd (Analyzer.analyse (TR := Rules.time) Samples.good_log) = inr a
    /\ Py.sum (Py.values (Analyzer.word_counts a)) = 7%Z.
Proof.
  eexists. split; [reflexivity|].
  exact (proj1 (proj2 (proj2 (proj2
    (@X14_word_table_counts_occurrences Rules.time Samples.good_log
       _ _ eq_refl))))).
Defined.

(** X15.  The top words of the first analyzer's report are at most ten
    words of the valid events' word lists, no word twice, and its line of
    content themes is the five most common of them, joined by commas. *)
Theorem X15_themes_are_the_five_most_common
    {TR : TimeRuntime} (log_data : list record)
    (stdout : list string) (a : Analyzer.analysis) :
  Analyzer.analyse log_data = (stdout, inr a) ->
  let all_content_words :=
    flat_map (fun r => detected_words_list (rec r)) (session log_data) in
  length (Analyzer.top_content_words a) <= 10
  /\ NoDup (Analyzer.top_content_words a)
  /\ (forall w, In w (Analyzer.top_content_words a) ->
        In w all_content_words)
  /\ Analyzer.inferred_content_keywords a
     = Py.join ", "
         (map fst (Py.most_common 5 (Py.Counter all_content_words))).
Proof.
  intros H all_content_words.
  pose proof (analyzer_times _ _ _ H) as (_ & _ & _ & _ & _ & Themes).
  apply analyzer_report in H. destruct H as (_ & _ & W & T & _).
  fold all_content_words in W. rewrite Themes, T, W.
  destruct (TopFacts.top_words_facts 10 all_content_words)
    as (Hlen & Hnd & Hin & _).
  split; [exact Hlen|]. split; [exact Hnd|]. split; [exact Hin|].
  rewrite TopFacts.most_common_prefix by lia. reflexivity.
Qed.

(** X15, a run: the themes of the sample log. *)
Lemma X15_themes_are_the_five_most_common_witness :
  exists a : Analyzer.analysis,
    snd (Analyzer.analyse (TR := Rules.time) Samples.good_log) = inr a
    /\ Analyzer.inferred_content_keywords a = "gamma, alpha, beta"%string.
Proof.
  eexists. split; [reflexivity|].
  exact (proj2 (proj2 (proj2
    (@X15_themes_are_the_five_most_common Rules.time Samples.good_log
       _ _ eq_refl)))).
Defined.

Lemma log_of_run_well_formed {CR : CaptureRuntime}
    (frames : list (string * string)) :
  Forall well_formed_event (OcrSave.log_of_run frames).
Proof.
  unfold OcrSave.log_of_run. rewrite log_of_run_from. cbn [app].
  induction frames as [|f frames IH]; [constructor|].
  cbn [flat_map]. apply Forall_app. split;
    [apply log_frame_well_formed | exact IH].
Qed.

Lemma counted_words_total (events : list timed_record) :
  Forall (fun r => well_formed_event (rec r)) events ->
  Py.sum (map (fun r => non_duplicate_count (rec r)) events)
  = Z.of_nat (length (flat_map (fun r => detected_words_list (rec r)) events)).
Proof.
  induction 1 as [|r events Hr _ IH]; [reflexivity|].
  cbn [map flat_map]. rewrite PyFacts.sum_cons, IH, length_app.
  destruct Hr as (_ & E & _). rewrite E. lia.
Qed.

(** X16.  On a log written by [ocr_save.py] the analyzers' total of words
    read is the number of words in the word lists of the valid events,
    which is also the sum of the counts of the word table; and it is at
    least the number of valid events, every logged event having a word. *)
Theorem X16_total_on_captured_log
    {CR : CaptureRuntime} {TX : TextRuntime} {SA : ScoreArith}
    {TR : TimeRuntime}
    (frames : list (string * string))
    (stdout1 stdout2 : list string)
    (a1 : Analyzer.analysis) (a2 : SmartAnalyzer.analysis) :
  Analyzer.analyse (OcrSave.log_of_run frames) = (stdout1, inr a1) ->
  SmartAnalyzer.analyse (OcrSave.log_of_run frames) = (stdout2, inr a2) ->
  Analyzer.total_words_read a1
  = Py.sum (Py.values (Analyzer.word_counts a1))
  /\ SmartAnalyzer.total_words_read a2
     = Py.sum (Py.values (SmartAnalyzer.word_counts a2))
  /\ (Z.of_nat (length (validEvents (OcrSave.log_of_run frames)))
      <= Analyzer.total_words_read a1)%Z.
Proof.
  intros H1 H2.
  pose proof (log_of_run_well_formed frames) as WF.
  set (log_data := OcrSave.log_of_run frames) in *.
  apply analyzer_report in H1. destruct H1 as (_ & T1 & W1 & _).
  apply smart_analyzer_report in H2. destruct H2 as (_ & T2 & W2 & _).
  assert (WS : Forall (fun r => well_formed_event (rec r)) (session log_data)).
  { rewrite Forall_forall in *. intros r Hr.
    apply WF. now apply session_rec_in. }
  rewrite T1, T2, W1, W2, !TableFacts.Counter_total.
  rewrite (counted_words_total _ WS).
  split; [reflexivity|]. split; [reflexivity|].
  rewrite <- (counted_words_total _ WS), session_total.
  assert (WV : Forall well_formed_event (validEvents log_data)).
  { rewrite Forall_forall in *. intros r Hr. apply WF.
    unfold validEvents in Hr. now apply filter_In in Hr. }
  clear - WV. induction WV as [|r l Hr _ IH]; [reflexivity|].
  cbn [length totalWordsRead fold_right].
  unfold totalWordsRead in IH. destruct Hr as ((Hpos & _) & _). lia.
Qed.

(** X16, a run: two frames are logged, of nine and of two words. *)
Lemma X16_total_on_captured_log_witness :
  exists (a1 : Analyzer.analysis) (a2 : SmartAnalyzer.analysis),
    snd (Analyzer.analyse (TR := Rules.time)
           (OcrSave.log_of_run (CR := CaptureRules.capture)
              CaptureRules.frames))
    = inr a1
    /\ snd (SmartAnalyzer.analyse (TX := Rules.text) (SA := Rules.scores)
              (TR := Rules.time)
              (OcrSave.log_of_run (CR := CaptureRules.capture)
                 CaptureRules.frames))
       = inr a2
    /\ Analyzer.total_words_read a1 = 11%Z
    /\ SmartAnalyzer.total_words_read a2 = 11%Z.
Proof.
  eexists. eexists.
  split; [reflexivity|]. split; [reflexivity|].
  destruct (@X16_total_on_captured_log
              CaptureRules.capture Rules.text Rules.scores Rules.time
              CaptureRules.frames _ _ _ _ eq_refl eq_refl)
    as (T1 & T2 & _).
  split; [exact T1 | exact T2].
Defined.

(** X17.  When no event of the log carries a word, the second analyzer
    still reports: its narrative is the summarizer's fixed message for an
    empty word stream, and its word table and top words are empty. *)
Theorem X17_report_without_words
    {TX : TextRuntime} {SA : ScoreArith} {TR : TimeRuntime}
    (log_data : list record)
    (stdout : list string) (a : SmartAnalyzer.analysis) :
  Forall (fun r => detected_words_list r = []) log_data ->
  SmartAnalyzer.analyse log_data = (stdout, inr a) ->
  SmartAnalyzer.content_summary_narrative a
  = "Not enough coherent text detected to generate a narrative summary."%string
  /\ SmartAnalyzer.word_counts a = []
  /\ SmartAnalyzer.top_content_words a = [].
Proof.
  intros Hw H.
  pose proof (smart_analyzer_times _ _ _ H) as (_ & _ & _ & _ & _ & N).
  apply smart_analyzer_report in H. destruct H as (_ & _ & W & T & _).
  assert (E : flat_map (fun r => detected_words_list (rec r))
                       (session log_data) = []).
  { assert (F : Forall (fun r => detected_words_list (rec r) = [])
                       (session log_data)).
    { rewrite Forall_forall in *. intros r Hr.
      apply Hw. now apply session_rec_in. }
    clear - F. induction F as [|r l Hr _ IH]; [reflexivity|].
    cbn [flat_map]. now rewrite Hr, IH. }
  rewrite E in N, W. rewrite N, T, W. repeat split; reflexivity.
Qed.

(** X17, a run. *)
Lemma X17_report_without_words_witness :
  exists a : SmartAnalyzer.analysis,
    snd (SmartAnalyzer.analyse (TX := Rules.text) (SA := Rules.scores)
           (TR := Rules.time) CaptureRules.wordless_log)
    = inr a
    /\ SmartAnalyzer.top_content_words a = [].
Proof.
  eexists. split; [reflexivity|].
  refine (proj2 (proj2
    (@X17_report_without_words Rules.text Rules.scores Rules.time
       CaptureRules.wordless_log _ _ _ eq_refl))).
  repeat constructor.
Defined.

(* ------------------------------------------------------------------ *)
(** * More of the summarizer *)
(* ------------------------------------------------------------------ *)

Module ScoreFacts.
Import Py DictFacts.

Lemma dict_set_NoDup {V : Type} (d : dict V) (k : string) (v : V) :
  NoDup (keys d) -> NoDup (keys (dict_set d k v)).
Proof.
  intros ND. destruct (in_dec string_dec k (keys d)) as [I|N].
  - now rewrite dict_set_present.
  - rewrite dict_set_absent by assumption. unfold keys. rewrite map_app.
    cbn [map fst].
    apply (Permutation_NoDup (l := k :: map fst d)).
    + apply Permutation_cons_append.
    + now constructor.
Qed.

Section Scores.
Context {TX : TextRuntime} {SA : ScoreArith}.

Lemma score_sentences_NoDup (wf : dict score) (ss : list string)
    (d : dict score) :
  NoDup (keys d) ->
  NoDup (keys (fold_left (SmartAnalyzer.score_sentence wf) ss d)).
Proof.
  revert d; induction ss as [|s ss IH]; intros d ND; [exact ND|].
  cbn [fold_left]. apply IH. unfold SmartAnalyzer.score_sentence.
  generalize (word_tokenize (str_lower s)) as ws.
  intros ws. revert d ND. induction ws as [|w ws IHw]; intros d ND;
    [exact ND|].
  cbn [fold_left]. apply IHw.
  destruct (SummarizerFacts.score_word_cases wf s d w)
    as [->|(_ & _ & v & ->)]; [exact ND | now apply dict_set_NoDup].
Qed.

(** Under a comparison that is total and transitive, the descending sort
    sorts. *)
Lemma insert_desc_sorted {A : Type} (key : A -> score) (x : A) (l : list A) :
  (forall a b, score_leb a b = true \/ score_leb b a = true) ->
  (forall a b c, score_leb a b = true -> score_leb b c = true ->
                 score_leb a c = true) ->
  StronglySorted (fun a b => score_leb (key b) (key a) = true) l ->
  StronglySorted (fun a b => score_leb (key b) (key a) = true)
                 (insert_desc score_leb key x l).
Proof.
  intros Total Trans. induction l as [|y l IH]; intros H; cbn [insert_desc].
  - constructor; constructor.
  - inversion H as [|? ? Hl Hy]; subst.
    destruct (score_leb (key y) (key x)) eqn:E.
    + constructor; [assumption|]. constructor; [exact E|].
      rewrite Forall_forall in *. intros z Hz.
      exact (Trans _ _ _ (Hy z Hz) E).
    + constructor; [now apply IH|].
      rewrite Forall_forall in *. intros z Hz.
      apply (Permutation_in z
               (Permutation_sym
                  (PyFacts.insert_desc_permutation score_leb key x l))) in Hz.
      destruct Hz as [<-|Hz]; [|now apply Hy].
      destruct (Total (key x) (key y)) as [T|T]; [exact T | congruence].
Qed.

Lemma sorted_reverse_sorted {A : Type} (key : A -> score) (l : list A) :
  (forall a b, score_leb a b = true \/ score_leb b a = true) ->
  (forall a b c, score_leb a b = true -> score_leb b c = true ->
                 score_leb a c = true) ->
  StronglySorted (fun a b => score_leb (key b) (key a) = true)
                 (sorted_reverse score_leb key l).
Proof.
  intros Total Trans. induction l as [|x l IH]; [constructor|].
  cbn [sorted_reverse fold_right]. now apply insert_desc_sorted.
Qed.
End Scores.

Lemma fold_left_max_ge (vs : list Z) (v : Z) :
  (v <= fold_left Z.max vs v)%Z
  /\ forall x, In x vs -> (x <= fold_left Z.max vs v)%Z.
Proof.
  revert v; induction vs as [|y vs IH]; intros v; cbn [fold_left].
  - split; [lia | intros x []].
  - destruct (IH (Z.max v y)) as [H1 H2]. split; [lia|].
    intros x [<-|Hx]; [lia | now apply H2].
Qed.

Lemma occurrences_filter (p : string -> bool) (w : string) (l : list string) :
  p w = true -> occurrences w (filter p l) = occurrences w l.
Proof.
  intros Hp. induction l as [|x l IH]; [reflexivity|].
  cbn [filter occurrences]. destruct (p x) eqn:Ex.
  - cbn [occurrences]. now rewrite IH.
  - destruct (String.eqb_spec x w) as [->|N]; [congruence | exact IH].
Qed.

Lemma count_content_words_filter {TX : TextRuntime} (ws : list string)
    (d : dict Z) :
  fold_left (SmartAnalyzer.count_content_word stopwords_english) ws d
  = fold_left count_one (filter content_word ws) d.
Proof.
  revert d; induction ws as [|w ws IH]; intros d; [reflexivity|].
  cbn [fold_left filter]. rewrite IH.
  unfold SmartAnalyzer.count_content_word, content_word.
  destruct (str_isalnum w && negb (existsb (String.eqb w) stopwords_english));
    reflexivity.
Qed.

End ScoreFacts.

(** X18.  The word frequencies of the summarizer before normalisation are
    the counter of the content words of the text, the tokens that are
    alphanumeric and no stop-words: each entry is a content word with the
    number of its occurrences among the tokens, at least 1 and at most the
    maximum frequency; the maximum frequency is at least 1, also for an
    empty table, so the normalisation never divides by zero; and the
    normalised table has the same words. *)
Theorem X18_frequencies_count_content_words
    {TX : TextRuntime} {SA : ScoreArith} (text : string) :
  let words := word_tokenize (str_lower text) in
  let counts :=
    fold_left (SmartAnalyzer.count_content_word stopwords_english) words [] in
  counts = Py.Counter (filter content_word words)
  /\ (1 <= SmartAnalyzer.max_frequency_of counts)%Z
  /\ (forall w c,
        In (w, c) counts ->
        content_word w = true
        /\ c = occurrences w words
        /\ (1 <= c <= SmartAnalyzer.max_frequency_of counts)%Z)
  /\ Py.keys (SmartAnalyzer.word_frequencies_of text) = Py.keys counts.
Proof.
  intros words counts.
  assert (E : counts = Py.Counter (filter content_word words)).
  { unfold counts. apply ScoreFacts.count_content_words_filter. }
  destruct (CounterFacts.Counter_counted (filter content_word words))
    as (Items & _ & _).
  assert (Entry : forall w c, In (w, c) counts ->
                    content_word w = true /\ c = occurrences w words
                    /\ (1 <= c)%Z).
  { intros w c H. rewrite E in H. destruct (Items _ H) as [Hin Hc].
    cbn [fst snd] in *. pose proof Hin as Hf.
    apply filter_In in Hf. destruct Hf as [Hw Hcw].
    split; [exact Hcw|].
    rewrite ScoreFacts.occurrences_filter in Hc by assumption.
    split; [exact Hc|]. subst c. now apply TableFacts.occurrences_positive. }
  assert (Max : forall w c, In (w, c) counts ->
                  (c <= SmartAnalyzer.max_frequency_of counts)%Z).
  { intros w c H. unfold SmartAnalyzer.max_frequency_of.
    apply (in_map snd) in H. cbn [snd] in H. fold (Py.values counts) in H.
    destruct (Py.values counts) as [|v vs]; [destruct H|].
    destruct (ScoreFacts.fold_left_max_ge vs v) as [H1 H2].
    destruct H as [<-|H]; [exact H1 | now apply H2]. }
  split; [exact E|]. split; [|split].
  - destruct counts as [|[w c] rest] eqn:C;
      [unfold SmartAnalyzer.max_frequency_of; cbn; lia|].
    rewrite <- C in *.
    assert (H : In (w, c) counts) by (rewrite C; now left).
    destruct (Entry w c H) as (_ & _ & Hc). specialize (Max w c H). lia.
  - intros w c H. destruct (Entry w c H) as (Hcw & Hc & Hpos).
    specialize (Max w c H). repeat split; assumption.
  - unfold SmartAnalyzer.word_frequencies_of, SmartAnalyzer.normalise, Py.keys.
    fold words. fold counts. rewrite map_map. reflexivity.
Qed.

(** X19.  The sentences selected for the summary, [n] asked for: at most
    [n], no sentence twice, and each one a sentence of the text that splits
    on spaces into fewer than 30 items and has a token with a frequency. *)
Theorem X19_selected_sentences
    {TX : TextRuntime} {SA : ScoreArith} (text : string) (n : nat) :
  let selected :=
    SmartAnalyzer.summary_sentences_of n (SmartAnalyzer.sentence_scores_of text)
  in
  length selected <= n
  /\ NoDup selected
  /\ forall s, In s selected ->
       In s (sent_tokenize text)
       /\ length (Py.split " " s) < 30
       /\ exists w, In w (word_tokenize (str_lower s))
                    /\ Py.dict_mem (SmartAnalyzer.word_frequencies_of text) w
                       = true.
Proof.
  intros selected. unfold selected, SmartAnalyzer.summary_sentences_of.
  split; [|split].
  - rewrite length_map. apply PyFacts.nlargest_length.
  - unfold Py.nlargest. rewrite <- firstn_map.
    assert (ND : NoDup (map fst (Py.sorted_reverse score_leb snd
                                   (SmartAnalyzer.sentence_scores_of text)))).
    { apply (Permutation_NoDup
               (l := map fst (SmartAnalyzer.sentence_scores_of text))).
      - apply Permutation_map, PyFacts.sorted_reverse_permutation.
      - apply (ScoreFacts.score_sentences_NoDup _ _ []). constructor. }
    rewrite <- (firstn_skipn n) in ND. now apply NoDup_app_remove_r in ND.
  - intros s Hs.
    apply SummarizerFacts.summary_sentences_scored in Hs.
    unfold SmartAnalyzer.sentence_scores_of in Hs.
    apply SummarizerFacts.score_sentences_origin in Hs.
    destruct Hs as [[]|H]. exact H.
Qed.

(** X20.  Where the comparison of scores is total and transitive, as it is
    for floats, the summary lists its sentences by descending score, and
    no scored sentence left out has a higher score than a selected one. *)
Theorem X20_summary_by_descending_score
    {TX : TextRuntime} {SA : ScoreArith} (text : string) (n : nat) :
  (forall a b, score_leb a b = true \/ score_leb b a = true) ->
  (forall a b c, score_leb a b = true -> score_leb b c = true ->
                 score_leb a c = true) ->
  let sentence_scores := SmartAnalyzer.sentence_scores_of text in
  let ranked := Py.nlargest score_leb snd n sentence_scores in
  SmartAnalyzer.summary_sentences_of n sentence_scores = map fst ranked
  /\ StronglySorted (fun a b => score_leb (snd b) (snd a) = true) ranked
  /\ forall a b,
       In a ranked -> In b sentence_scores -> ~ In b ranked ->
       score_leb (snd b) (snd a) = true.
Proof.
  intros Total Trans sentence_scores ranked.
  split; [reflexivity|].
  pose proof (ScoreFacts.sorted_reverse_sorted snd sentence_scores Total Trans)
    as S.
  rewrite <- (firstn_skipn n) in S.
  apply PyFacts.StronglySorted_app_cross in S. destruct S as [S1 S2].
  split; [exact S1|].
  intros a b Ha Hb Hn. apply S2; [exact Ha|].
  apply (Permutation_in b
           (PyFacts.sorted_reverse_permutation score_leb snd sentence_scores))
    in Hb.
  rewrite <- (firstn_skipn n) in Hb. apply in_app_or in Hb.
  destruct Hb as [Hb|Hb]; [contradiction | exact Hb].
Qed.

(** X20, a run with rational scores: of five scored sentences four are
    selected, the lowest left out. *)
Lemma X20_summary_by_descending_score_witness :
  SmartAnalyzer.summary_sentences_of (SA := Rules.scores) 4
    (SmartAnalyzer.sentence_scores_of (TX := Rules.text) (SA := Rules.scores)
       (Py.join " " CaptureRules.five_sentences))
  = ["cats eat fish."; "dogs eat cats."; "cats sleep."; "fish swim."]%string.
Proof.
  refine (proj1 (@X20_summary_by_descending_score Rules.text Rules.scores
                   (Py.join " " CaptureRules.five_sentences) 4 _ _)).
  - intros a b. cbn [score_leb Rules.scores].
    destruct (Qlt_le_dec a b) as [H|H].
    + left. apply Qle_bool_iff. now apply Qlt_le_weak.
    + right. now apply Qle_bool_iff.
  - intros a b c. cbn [score_leb Rules.scores].
    rewrite !Qle_bool_iff. apply Qle_trans.
Defined.

(* ------------------------------------------------------------------ *)
(** * The top words of the reports *)
(* ------------------------------------------------------------------ *)

(** The table has one entry for each distinct word. *)
Lemma Counter_length (l : list string) :
  length (Py.Counter l) = length (nodup string_dec l).
Proof.
  rewrite <- (length_map fst).
  apply Permutation_length, NoDup_Permutation.
  - apply TableFacts.Counter_keys_NoDup.
  - apply NoDup_nodup.
  - destruct (CounterFacts.Counter_counted l) as (Items & _ & All).
    intros w. rewrite nodup_In. split.
    + intros H. apply in_map_iff in H. destruct H as (kv & <- & Hkv).
      now apply Items.
    + apply All.
Qed.

Lemma mergeWords_session (events : list timed_record) :
  mergeWords (map rec events)
  = flat_map (fun r => detected_words_list (rec r)) events.
Proof.
  unfold mergeWords. induction events as [|r events IH]; [reflexivity|].
  cbn [map flat_map]. now rewrite IH.
Qed.

(** C8.  The top words of a flat word sequence, [k] asked for.  They are
    as many as [k] allows: [k] of them, or all the distinct words of the
    sequence when these are fewer than [k]; so never more than [k], and when
    fewer than [k] no word of the sequence is left out.  They are distinct
    words of the sequence.  The count of a word in the table is the number
    of its occurrences in the sequence; the top words stand by descending
    count, and for equal counts by first occurrence in the sequence; every
    word of the sequence that is not returned ranks after every returned
    one in that order, so its count is not larger than any returned one.
    Equal inputs give equal results.  The top words of both analyzers'
    reports are these, with [k = 10], for the merged words of the session. *)
Theorem C8_top_words_by_count_then_first_occurrence
    {TX : TextRuntime} {SA : ScoreArith} {TR : TimeRuntime} :
  (forall (k : nat) (flatWordSequence : list string),
     let top := map fst (Py.most_common k (Py.Counter flatWordSequence)) in
     length top = Nat.min k (length (nodup string_dec flatWordSequence))
     /\ length top <= k
     /\ NoDup top
     /\ (forall w, In w top -> In w flatWordSequence)
     /\ (length top < k -> forall w, In w flatWordSequence -> In w top)
     /\ (forall w, In w flatWordSequence ->
           Py.dict_get (Py.Counter flatWordSequence) w
           = Some (occurrences w flatWordSequence))
     /\ StronglySorted (ranks_before flatWordSequence) top
     /\ (forall w w',
           In w top -> In w' flatWordSequence -> ~ In w' top ->
           ranks_before flatWordSequence w w'
           /\ (occurrences w' flatWordSequence
               <= occurrences w flatWordSequence)%Z)
     /\ (forall other : list string,
           other = flatWordSequence ->
           map fst (Py.most_common k (Py.Counter other)) = top))
  /\ (forall (log_data : list record) (stdout1 stdout2 : list string)
             (a1 : Analyzer.analysis) (a2 : SmartAnalyzer.analysis),
        Analyzer.analyse log_data = (stdout1, inr a1) ->
        SmartAnalyzer.analyse log_data = (stdout2, inr a2) ->
        let flatWordSequence := mergeWords (map rec (session log_data)) in
        Analyzer.top_content_words a1
        = map fst (Py.most_common 10 (Py.Counter flatWordSequence))
        /\ SmartAnalyzer.top_content_words a2
           = map fst (Py.most_common 10 (Py.Counter flatWordSequence))).
Proof.
  split.
  - intros k flatWordSequence top.
    destruct (TopFacts.top_words_facts k flatWordSequence)
      as (Hle & Hnd & Hin & Hsorted & Hcross).
    fold top in Hle, Hnd, Hin, Hsorted, Hcross.
    pose (L := Py.sorted_reverse Z.leb snd (Py.Counter flatWordSequence)).
    assert (Etop : top = firstn k (map fst L)).
    { unfold top, Py.most_common, Py.nlargest. now rewrite firstn_map. }
    assert (Llen : length (map fst L)
                   = length (nodup string_dec flatWordSequence)).
    { rewrite length_map, <- Counter_length. symmetry.
      apply Permutation_length, PyFacts.sorted_reverse_permutation. }
    assert (Keys : forall w, In w flatWordSequence -> In w (map fst L)).
    { intros w Hw.
      apply (CounterFacts.Counter_counted flatWordSequence) in Hw.
      unfold Py.keys in Hw.
      apply (Permutation_in w
               (Permutation_map fst
                  (PyFacts.sorted_reverse_permutation Z.leb snd _)) Hw). }
    assert (Len : length top
                  = Nat.min k (length (nodup string_dec flatWordSequence))).
    { rewrite Etop, length_firstn, Llen. reflexivity. }
    split; [exact Len|]. split; [exact Hle|]. split; [exact Hnd|].
    split; [exact Hin|]. split; [|split; [|split; [exact Hsorted|split]]].
    + intros Hshort w Hw. rewrite Etop. rewrite firstn_all2.
      * now apply Keys.
      * rewrite Llen. lia.
    + intros w Hw. rewrite TableFacts.Counter_lookup.
      destruct (in_dec string_dec w flatWordSequence);
        [reflexivity | contradiction].
    + intros w w' Hw Hw' Hnot.
      pose proof (Hcross w w' Hw Hw' Hnot) as Hr.
      split; [exact Hr|]. destruct Hr as [Hr|[Hr _]]; lia.
    + intros other ->. reflexivity.
  - intros log_data stdout1 stdout2 a1 a2 H1 H2 flatWordSequence.
    apply analyzer_report in H1. destruct H1 as (_ & _ & W1 & T1 & _).
    apply smart_analyzer_report in H2. destruct H2 as (_ & _ & W2 & T2 & _).
    unfold flatWordSequence. rewrite mergeWords_session, T1, T2, W1, W2.
    split; reflexivity.
Qed.

(** C8, a run: the three distinct words of the sample log, the most
    frequent first, the two of equal count by first occurrence. *)
Lemma C8_top_words_by_count_then_first_occurrence_witness :
  exists (a1 : Analyzer.analysis) (a2 : SmartAnalyzer.analysis),
    snd (Analyzer.analyse (TR := Rules.time) Samples.good_log) = inr a1
    /\ snd (SmartAnalyzer.analyse (TX := Rules.text) (SA := Rules.scores)
              (TR := Rules.time) Samples.good_log)
       = inr a2
    /\ Analyzer.top_content_words a1 = ["gamma"; "alpha"; "beta"]%string
    /\ SmartAnalyzer.top_content_words a2 = ["gamma"; "alpha"; "beta"]%string.
Proof.
  eexists. eexists.
  split; [reflexivity|]. split; [reflexivity|].
  exact (proj2 (@C8_top_words_by_count_then_first_occurrence
                  Rules.text Rules.scores Rules.time)
           Samples.good_log _ _ _ _ eq_refl eq_refl).
Defined.

(** On a text of fewer sentences than asked for nothing is scored, and a
    sentence of thirty items is returned like any other: the limit of 30
    items bears on the scoring path only. *)
Lemma thirty_item_sentence_returned_on_short_text :
  length (sent_tokenize (TextRuntime := Rules.text)
            (Py.join " " Samples.thirty_words)) = 1
  /\ length (Py.split " " Samples.thirty_word_sentence) = 30
  /\ SmartAnalyzer.generate_extractive_summary
       (TX := Rules.text) (SA := Rules.scores)
       Samples.thirty_words SmartAnalyzer.default_num_sentences
     = Samples.thirty_word_sentence.
Proof. repeat split; vm_compute; reflexivity. Qed.
